(** * data-agent: the MySQL tool server and its database access functions

    A shallow embedding of
      - the database module ([createConnection], [getTableColumns],
        [getTables], [executeQuery], [testConnection] and the command-line
        [main]), and
      - the MCP server ([isDatabaseConnectionArgs], [isGetTableColumnsArgs],
        [isExecuteQueryArgs] and the [CallToolRequestSchema] handler).

    JavaScript values are an inductive type, [async] functions are
    computations in a small monad with three completions (return, throw,
    [process.exit]) that records every console and driver call, and the
    mysql2 driver is a record of oracles. *)

From Stdlib Require Import String Ascii List ZArith Lia Bool DecimalString.
Import ListNotations.
Local Open Scope string_scope.

(** ** JavaScript values *)

Module Js.

(** Numbers: the integers a JavaScript number holds exactly and prints in
    decimal digits (below 10^21 in absolute value; enough for ports, counts
    and row numbers), and [NaN]. *)
Inductive number :=
| Int (z : Z)
| NaN.

#[warnings="-register-all"] Inductive value :=
| Undefined
| Null
| Bool (b : bool)
| Num (n : number)
| Str (s : string)
| Arr (xs : list value)
| Obj (props : list (string * value)).

(** What a [throw] carries: an instance of [Error] with its message, or
    any other value. *)
Inductive thrown :=
| Error (message : string)
| NonError (v : value).

Inductive type_tag :=
| TUndefined | TObject | TBoolean | TNumber | TString.

Definition typeof (v : value) : type_tag :=
  match v with
  | Undefined => TUndefined
  | Null => TObject
  | Bool _ => TBoolean
  | Num _ => TNumber
  | Str _ => TString
  | Arr _ => TObject
  | Obj _ => TObject
  end.

Definition type_tag_eqb (a b : type_tag) : bool :=
  match a, b with
  | TUndefined, TUndefined | TObject, TObject | TBoolean, TBoolean
  | TNumber, TNumber | TString, TString => true
  | _, _ => false
  end.

Definition number_truthy (n : number) : bool :=
  match n with
  | Int z => negb (z =? 0)%Z
  | NaN => false
  end.

(** ToBoolean. *)
Definition truthy (v : value) : bool :=
  match v with
  | Undefined | Null => false
  | Bool b => b
  | Num n => number_truthy n
  | Str s => negb (s =? "")
  | Arr _ | Obj _ => true
  end.

Fixpoint lookup (k : string) (props : list (string * value)) : value :=
  match props with
  | [] => Undefined
  | (k', v) :: rest => if k =? k' then v else lookup k rest
  end.

(** [v.k] for the field names the server reads ([host], [port], ...); none
    of them is an own property of an array. Only applied to values that
    passed the handler's object check. *)
Definition get (v : value) (k : string) : value :=
  match v with
  | Obj props => lookup k props
  | _ => Undefined
  end.

Definition is_undefined (v : value) : bool :=
  match v with Undefined => true | _ => false end.

Definition isArray (v : value) : bool :=
  match v with Arr _ => true | _ => false end.

Definition string_of_nat (n : nat) : string :=
  NilZero.string_of_uint (Nat.to_uint n).

Definition string_of_Z (z : Z) : string :=
  NilZero.string_of_int (Z.to_int z).

(** [String.prototype.includes]. *)
Fixpoint prefix_of (p s : string) : bool :=
  match p, s with
  | EmptyString, _ => true
  | String a p', String b s' => Ascii.eqb a b && prefix_of p' s'
  | String _ _, EmptyString => false
  end.

Fixpoint includes (s sub : string) : bool :=
  prefix_of sub s ||
  match s with
  | EmptyString => false
  | String _ s' => includes s' sub
  end.

(** [s.substring(0, n)] on text held as UTF-8: JavaScript counts UTF-16
    units, one for a character of one, two or three bytes and two for a
    character of four bytes. A cut between the two units of such a character
    leaves a lone surrogate, which the console writes as U+FFFD. *)
Fixpoint utf16_prefix (n : nat) (s : string) : string :=
  match n, s with
  | O, _ => ""
  | _, EmptyString => ""
  | S n', String c rest =>
      let b := nat_of_ascii c in
      if Nat.ltb b 192 then String c (utf16_prefix n' rest)
      else if Nat.ltb b 224 then
        match rest with
        | String c2 rest2 => String c (String c2 (utf16_prefix n' rest2))
        | EmptyString => String c ""
        end
      else if Nat.ltb b 240 then
        match rest with
        | String c2 (String c3 rest3) =>
            String c (String c2 (String c3 (utf16_prefix n' rest3)))
        | _ => String c rest
        end
      else
        match rest with
        | String c2 (String c3 (String c4 rest4)) =>
            match n' with
            | O => String (ascii_of_nat 239)
                     (String (ascii_of_nat 191) (String (ascii_of_nat 189) ""))
            | S n'' =>
                String c (String c2 (String c3
                  (String c4 (utf16_prefix n'' rest4))))
            end
        | _ => String c rest
        end
  end.

Arguments utf16_prefix : simpl never.

(** ToString, as a template literal applies it. Objects carry data members
    only, so an object prints as [[object Object]]; an array prints its
    elements between commas, [null] and [undefined] as nothing. *)
Fixpoint to_string (v : value) : string :=
  match v with
  | Undefined => "undefined"
  | Null => "null"
  | Bool true => "true"
  | Bool false => "false"
  | Num (Int z) => NilZero.string_of_int (Z.to_int z)
  | Num NaN => "NaN"
  | Str s => s
  | Arr xs =>
      (fix go (l : list value) : string :=
         match l with
         | [] => ""
         | x :: l' =>
             match x with
             | Undefined | Null => ""
             | _ => to_string x
             end
             ++ match l' with
                | [] => ""
                | _ => "," ++ go l'
                end
         end) xs
  | Obj _ => "[object Object]"
  end.

(** *** JSON.stringify(v, null, 2) *)

Definition hex_digit (n : nat) : ascii :=
  match n with
  | 0 => "0" | 1 => "1" | 2 => "2" | 3 => "3" | 4 => "4" | 5 => "5"
  | 6 => "6" | 7 => "7" | 8 => "8" | 9 => "9" | 10 => "a" | 11 => "b"
  | 12 => "c" | 13 => "d" | 14 => "e" | _ => "f"
  end%char.

Definition dquote : string := String (ascii_of_nat 34) "".

Definition escape_char (c : ascii) : string :=
  let n := nat_of_ascii c in
  if Nat.eqb n 34 then "\" ++ dquote
  else if Nat.eqb n 92 then "\\"
  else if Nat.eqb n 8 then "\b"
  else if Nat.eqb n 12 then "\f"
  else if Nat.eqb n 10 then "\n"
  else if Nat.eqb n 13 then "\r"
  else if Nat.eqb n 9 then "\t"
  else if Nat.ltb n 32 then
    "\u00" ++ String (hex_digit (n / 16)) (String (hex_digit (n mod 16)) "")
  else String c "".

Fixpoint escape (s : string) : string :=
  match s with
  | EmptyString => ""
  | String c s' => escape_char c ++ escape s'
  end.

Definition quote (s : string) : string := dquote ++ escape s ++ dquote.

Definition newline : string := String (ascii_of_nat 10) "".

Fixpoint spaces (n : nat) : string :=
  match n with
  | O => ""
  | S n' => " " ++ spaces n'
  end.

Fixpoint join (sep : string) (parts : list string) : string :=
  match parts with
  | [] => ""
  | [p] => p
  | p :: rest => p ++ sep ++ join sep rest
  end.

Definition number_json (n : number) : string :=
  match n with
  | Int z => string_of_Z z
  | NaN => "null"
  end.

(** [None] is JSON.stringify's [undefined] (the value is left out of an
    object and written [null] in an array). *)
Fixpoint stringify_at (indent : nat) (v : value) {struct v} : option string :=
  match v with
  | Undefined => None
  | Null => Some "null"
  | Bool true => Some "true"
  | Bool false => Some "false"
  | Num n => Some (number_json n)
  | Str s => Some (quote s)
  | Arr xs =>
      let inner := indent + 2 in
      let items :=
        (fix go (l : list value) : list string :=
           match l with
           | [] => []
           | x :: l' =>
               match stringify_at inner x with
               | Some t => t
               | None => "null"
               end :: go l'
           end) xs in
      match items with
      | [] => Some "[]"
      | _ => Some ("[" ++ newline ++ spaces inner
                    ++ join ("," ++ newline ++ spaces inner) items
                    ++ newline ++ spaces indent ++ "]")
      end
  | Obj props =>
      let inner := indent + 2 in
      let members :=
        (fix go (l : list (string * value)) : list string :=
           match l with
           | [] => []
           | (k, x) :: l' =>
               match stringify_at inner x with
               | Some t => (quote k ++ ": " ++ t) :: go l'
               | None => go l'
               end
           end) props in
      match members with
      | [] => Some "{}"
      | _ => Some ("{" ++ newline ++ spaces inner
                    ++ join ("," ++ newline ++ spaces inner) members
                    ++ newline ++ spaces indent ++ "}")
      end
  end.

Definition stringify (v : value) : option string := stringify_at 0 v.

End Js.


(** ** The mysql2 driver

    The driver is outside the repository: it is a record of oracles, one per
    call the code makes. Within one call of a database function each oracle
    is consulted at most once, so a stateless oracle loses no behaviour.
    Every awaited call may reject, [end()] included; statements that need a
    driver whose [end()] resolves say so. *)

Module Mysql.

(** A connection handle. *)
Definition Connection := nat.

(** The object handed to [mysql.createConnection]. *)
Record ConnectionOptions := {
  host : string;
  user : string;
  password : string;
  database : string;
  port : Js.number
}.

Record ResultSetHeader := {
  fieldCount : Z;
  affectedRows : Z;
  insertId : Z;
  info : string;
  serverStatus : Z;
  warningStatus : Z;
  changedRows : Z
}.

(** First component of what [execute] resolves to: the rows of a SELECT, or
    the header of a statement that returns no rows. *)
Inductive QueryResult :=
| RowDataPackets (rows : list Js.value)
| Header (h : ResultSetHeader).

Definition to_value (r : QueryResult) : Js.value :=
  match r with
  | RowDataPackets rows => Js.Arr rows
  | Header h =>
      Js.Obj [("fieldCount", Js.Num (Js.Int (fieldCount h)));
              ("affectedRows", Js.Num (Js.Int (affectedRows h)));
              ("insertId", Js.Num (Js.Int (insertId h)));
              ("info", Js.Str (info h));
              ("serverStatus", Js.Num (Js.Int (serverStatus h)));
              ("warningStatus", Js.Num (Js.Int (warningStatus h)));
              ("changedRows", Js.Num (Js.Int (changedRows h)))]
  end.

(** [r.length]: [None] is [undefined] (a header has no such property). *)
Definition length (r : QueryResult) : option nat :=
  match r with
  | RowDataPackets rows => Some (List.length rows)
  | Header _ => None
  end.

(** [n > 0] for such a length ([undefined > 0] is false). *)
Definition gt_zero (n : option nat) : bool :=
  match n with
  | Some k => Nat.ltb 0 k
  | None => false
  end.

(** A length inside a template literal. *)
Definition show_length (n : option nat) : string :=
  match n with
  | Some k => Js.string_of_nat k
  | None => "undefined"
  end.

Record Driver := {
  connect : ConnectionOptions -> Js.thrown + Connection;
  execute : Connection -> string -> option (list Js.value)
            -> Js.thrown + (QueryResult * Js.value);
  end_ : Connection -> option Js.thrown
}.

End Mysql.

(** ** Effects: console, driver calls, exceptions and process exit *)

Inductive Event :=
| ConsoleLog (text : string)
| ConsoleError (text : string)
| ConsoleErrorWith (label : string) (e : Js.thrown)
| ConsolePrint (label : string) (v : Js.value)
| DriverConnect (opts : Mysql.ConnectionOptions)
| DriverExecute (c : Mysql.Connection) (sql : string)
                (params : option (list Js.value))
| DriverEnd (c : Mysql.Connection).

(** How a computation completes. [Exited] is [process.exit]: no [catch] and
    no [finally] runs after it. *)
Inductive Completion (A : Type) :=
| Returned (a : A)
| Threw (e : Js.thrown)
| Exited (code : Z).

Arguments Returned {A} a.
Arguments Threw {A} e.
Arguments Exited {A} code.

(** The local variable [connection] of the database function that is
    running. *)
Record Frame := { connection : option Mysql.Connection }.

Definition M (A : Type) : Type := Frame -> Completion A * Frame * list Event.

Definition ret {A} (a : A) : M A := fun f => (Returned a, f, []).

Definition bind {A B} (m : M A) (k : A -> M B) : M B :=
  fun f =>
    match m f with
    | (Returned a, f1, t1) =>
        match k a f1 with
        | (c, f2, t2) => (c, f2, (t1 ++ t2)%list)
        end
    | (Threw e, f1, t1) => (Threw e, f1, t1)
    | (Exited code, f1, t1) => (Exited code, f1, t1)
    end.

Declare Scope js_scope.
Delimit Scope js_scope with js.
Notation "x <- m ;; k" := (bind m (fun x => k))
  (at level 61, m at next level, right associativity) : js_scope.
Notation "m ;; k" := (bind m (fun _ => k))
  (at level 61, right associativity) : js_scope.
Local Open Scope js_scope.

Definition throw {A} (e : Js.thrown) : M A := fun f => (Threw e, f, []).

Definition process_exit {A} (code : Z) : M A := fun f => (Exited code, f, []).

Definition emit (e : Event) : M unit := fun f => (Returned tt, f, [e]).

Definition console_log (text : string) : M unit := emit (ConsoleLog text).

Definition console_error (text : string) : M unit := emit (ConsoleError text).

Definition get_connection : M (option Mysql.Connection) :=
  fun f => (Returned (connection f), f, []).

Definition set_connection (c : option Mysql.Connection) : M unit :=
  fun _ => (Returned tt, {| connection := c |}, []).

(** [try { m } catch (error) { h error }]. *)
Definition try_catch {A} (m : M A) (h : Js.thrown -> M A) : M A :=
  fun f =>
    match m f with
    | (Threw e, f1, t1) =>
        match h e f1 with
        | (c, f2, t2) => (c, f2, (t1 ++ t2)%list)
        end
    | r => r
    end.

(** [try { m } finally { fin }]: [fin] runs after a return and after a
    throw; when [fin] itself throws, that replaces the completion of [m]. *)
Definition try_finally {A} (m : M A) (fin : M unit) : M A :=
  fun f =>
    match m f with
    | (Exited code, f1, t1) => (Exited code, f1, t1)
    | (c, f1, t1) =>
        match fin f1 with
        | (Returned _, f2, t2) => (c, f2, (t1 ++ t2)%list)
        | (Threw e, f2, t2) => (Threw e, f2, (t1 ++ t2)%list)
        | (Exited code, f2, t2) => (Exited code, f2, (t1 ++ t2)%list)
        end
    end.

(** [error instanceof Error ? error.message : fallback]. *)
Definition message_or (error : Js.thrown) (fallback : string) : string :=
  match error with
  | Js.Error m => m
  | Js.NonError _ => fallback
  end.

(** ** The database module *)

Record DatabaseConfig := {
  cfg_host : string;
  cfg_user : string;
  cfg_password : string;
  cfg_database : string;
  cfg_port : option Js.number
}.

(** [DatabaseResult]: [data] and [error] are optional members. *)
Record DatabaseResult := {
  success : bool;
  data : option Js.value;
  error : option string;
  message : string
}.

(** [port || 3306]. *)
Definition port_or_default (port : option Js.number) : Js.number :=
  match port with
  | Some n => if Js.number_truthy n then n else Js.Int 3306
  | None => Js.Int 3306
  end.

Definition getTableColumns_sql : string := "
      SELECT 
        column_name as columnName,
        column_type as columnType,
        is_nullable as isNullable,
        IFNULL(column_comment, '') as columnComment,
        column_default as columnDefault,
        extra
      FROM information_schema.columns 
      WHERE table_schema = ? AND table_name = ?
      ORDER BY ordinal_position
    ".

Definition getTables_sql : string := "
      SELECT 
        table_name as tableName,
        IFNULL(table_comment, '') as tableComment,
        table_type as tableType,
        IFNULL(engine, '') as engine,
        table_rows as tableRows
      FROM information_schema.tables 
      WHERE table_schema = ?
      ORDER BY table_name
    ".

Section Database.

Variable drv : Mysql.Driver.

Definition mysql_createConnection (opts : Mysql.ConnectionOptions)
  : M Mysql.Connection :=
  fun f =>
    match Mysql.connect drv opts with
    | inr c => (Returned c, f, [DriverConnect opts])
    | inl e => (Threw e, f, [DriverConnect opts])
    end.

Definition connection_execute (c : Mysql.Connection) (sql : string)
           (params : option (list Js.value))
  : M (Mysql.QueryResult * Js.value) :=
  fun f =>
    match Mysql.execute drv c sql params with
    | inr r => (Returned r, f, [DriverExecute c sql params])
    | inl e => (Threw e, f, [DriverExecute c sql params])
    end.

Definition connection_end (c : Mysql.Connection) : M unit :=
  fun f =>
    match Mysql.end_ drv c with
    | None => (Returned tt, f, [DriverEnd c])
    | Some e => (Threw e, f, [DriverEnd c])
    end.

Definition createConnection (config : DatabaseConfig) : M Mysql.Connection :=
  try_catch
    (conn <- mysql_createConnection
               {| Mysql.host := cfg_host config;
                  Mysql.user := cfg_user config;
                  Mysql.password := cfg_password config;
                  Mysql.database := cfg_database config;
                  Mysql.port := port_or_default (cfg_port config) |} ;;
     ret conn)
    (fun error =>
       throw (Js.Error ("Failed to connect to database: "
                        ++ message_or error "Unknown error"))).

(** [finally { if (connection) { await connection.end(); } }] *)
Definition release_connection : M unit :=
  c <- get_connection ;;
  match c with
  | Some conn => connection_end conn
  | None => ret tt
  end.

Definition getTableColumns (host user password database tableName : string)
           (port : option Js.number) : M DatabaseResult :=
  console_log ("🔍 Getting columns for table: " ++ tableName
               ++ " in database: " ++ database) ;;
  set_connection None ;;
  try_finally
    (try_catch
       (conn <- createConnection
                  {| cfg_host := host; cfg_user := user;
                     cfg_password := password; cfg_database := database;
                     cfg_port := port |} ;;
        set_connection (Some conn) ;;
        r <- connection_execute conn getTableColumns_sql
               (Some [Js.Str database; Js.Str tableName]) ;;
        let columns := fst r in
        if Mysql.gt_zero (Mysql.length columns) then
          console_log ("   - Found " ++ Mysql.show_length (Mysql.length columns)
                       ++ " columns in table " ++ tableName) ;;
          ret {| success := true;
                 data := Some (Mysql.to_value columns);
                 error := None;
                 message := "Successfully retrieved "
                            ++ Mysql.show_length (Mysql.length columns)
                            ++ " columns from table " ++ tableName |}
        else
          ret {| success := false;
                 data := None;
                 error := None;
                 message := "Table " ++ tableName
                            ++ " does not exist or has no columns in database "
                            ++ database |})
       (fun error =>
          emit (ConsoleErrorWith "Error getting table columns:" error) ;;
          ret {| success := false;
                 data := None;
                 error := Some (message_or error "Unknown error occurred");
                 message := "Failed to get columns for table " ++ tableName
                            ++ ": " ++ message_or error "Unknown error" |}))
    release_connection.

Definition getTables (host user password database : string)
           (port : option Js.number) : M DatabaseResult :=
  console_log ("📊 Getting tables from database: " ++ database) ;;
  set_connection None ;;
  try_finally
    (try_catch
       (conn <- createConnection
                  {| cfg_host := host; cfg_user := user;
                     cfg_password := password; cfg_database := database;
                     cfg_port := port |} ;;
        set_connection (Some conn) ;;
        r <- connection_execute conn getTables_sql (Some [Js.Str database]) ;;
        let tables := fst r in
        console_log ("   - Found " ++ Mysql.show_length (Mysql.length tables)
                     ++ " tables in database " ++ database) ;;
        ret {| success := true;
               data := Some (Mysql.to_value tables);
               error := None;
               message := "Successfully retrieved "
                          ++ Mysql.show_length (Mysql.length tables)
                          ++ " tables from database " ++ database |})
       (fun error =>
          emit (ConsoleErrorWith "Error getting tables:" error) ;;
          ret {| success := false;
                 data := None;
                 error := Some (message_or error "Unknown error occurred");
                 message := "Failed to get tables from database " ++ database
                            ++ ": " ++ message_or error "Unknown error" |}))
    release_connection.

Definition executeQuery (host user password database query : string)
           (params : option (list Js.value)) (port : option Js.number)
  : M DatabaseResult :=
  console_log ("⚡ Executing query: " ++ Js.utf16_prefix 100 query ++ "...") ;;
  set_connection None ;;
  try_finally
    (try_catch
       (conn <- createConnection
                  {| cfg_host := host; cfg_user := user;
                     cfg_password := password; cfg_database := database;
                     cfg_port := port |} ;;
        set_connection (Some conn) ;;
        r <- connection_execute conn query params ;;
        let rows := fst r in
        let fields := snd r in
        ret {| success := true;
               data := Some (Js.Obj [("rows", Mysql.to_value rows);
                                     ("fields", fields)]);
               error := None;
               message := "Query executed successfully" |})
       (fun error =>
          emit (ConsoleErrorWith "Error executing query:" error) ;;
          ret {| success := false;
                 data := None;
                 error := Some (message_or error "Unknown error occurred");
                 message := "Failed to execute query: "
                            ++ message_or error "Unknown error" |}))
    release_connection.

Definition testConnection (host user password database : string)
           (port : option Js.number) : M DatabaseResult :=
  console_log ("🔌 Testing connection to database: " ++ database
               ++ "@" ++ host) ;;
  set_connection None ;;
  try_finally
    (try_catch
       (conn <- createConnection
                  {| cfg_host := host; cfg_user := user;
                     cfg_password := password; cfg_database := database;
                     cfg_port := port |} ;;
        set_connection (Some conn) ;;
        connection_execute conn "SELECT 1" None ;;
        ret {| success := true;
               data := None;
               error := None;
               message := "Successfully connected to database " ++ database
                          ++ "@" ++ host |})
       (fun error =>
          emit (ConsoleErrorWith "Connection test failed:" error) ;;
          ret {| success := false;
                 data := None;
                 error := Some (message_or error "Unknown error occurred");
                 message := "Failed to connect to database " ++ database
                            ++ "@" ++ host ++ ": "
                            ++ message_or error "Unknown error" |}))
    release_connection.

End Database.

(** ** The display formatters of the command line *)

(** A row of the column query at its TypeScript type. *)
Record ColumnInfo := {
  columnName : string;
  columnType : string;
  isNullable : string;
  columnComment : string;
  columnDefault : option string;
  extra : string
}.

(** A row of the table query; [tableRows] is [number | null]. *)
Record TableInfo := {
  tableName : string;
  tableComment : string;
  tableType : string;
  engine : string;
  tableRows : option Z
}.

(** [String.prototype.repeat]. *)
Fixpoint repeat_string (s : string) (n : nat) : string :=
  match n with
  | O => ""
  | S n' => s ++ repeat_string s n'
  end.

(** [s || fallback] on strings: the empty string is falsy. *)
Definition or_else (s fallback : string) : string :=
  if s =? "" then fallback else s.

(** [s || fallback] for [string | null]. *)
Definition or_else_null (s : option string) (fallback : string) : string :=
  match s with
  | Some t => or_else t fallback
  | None => fallback
  end.

(** [xs.forEach((x, index) => { result += block index x })], started at
    [index]. *)
Fixpoint forEach_append {A} (block : nat -> A -> string) (index : nat)
         (xs : list A) (result : string) : string :=
  match xs with
  | [] => result
  | x :: rest => forEach_append block (S index) rest (result ++ block index x)
  end.

(** What one round of the loop of [formatColumnInfo] appends. *)
Definition column_block (index : nat) (column : ColumnInfo) : string :=
  (Js.string_of_nat (index + 1) ++ ". " ++ columnName column ++ Js.newline)
  ++ ("   Type: " ++ columnType column ++ Js.newline)
  ++ ("   Nullable: "
      ++ (if isNullable column =? "YES" then "✅ Yes" else "❌ No")
      ++ Js.newline)
  ++ ("   Default: " ++ or_else_null (columnDefault column) "NULL"
      ++ Js.newline)
  ++ ("   Comment: " ++ or_else (columnComment column) "No comment"
      ++ Js.newline)
  ++ (if negb (extra column =? "") then
        "   Extra: " ++ extra column ++ Js.newline
      else "")
  ++ (repeat_string "─" 40 ++ Js.newline).

Definition formatColumnInfo (columns : list ColumnInfo) : string :=
  if Nat.eqb (List.length columns) 0 then "No columns found."
  else
    forEach_append column_block 0 columns
      (("Table contains " ++ Js.string_of_nat (List.length columns)
        ++ " columns:" ++ Js.newline)
       ++ (repeat_string "═" 80 ++ Js.newline)).

(** *** The formatters on what the driver answered

    The casts [rows as ColumnInfo[]] and [rows as TableInfo[]] check nothing:
    at run time a formatter reads whatever value [result.data] holds, and a
    read it cannot make is a [TypeError], here with the message Node gives
    it. Objects carry data members only. *)

Definition TypeError (message : string) : Js.thrown := Js.Error message.

(** [v.k] for a member [k] that no prototype defines. *)
Definition member (v : Js.value) (k : string) : Js.thrown + Js.value :=
  match v with
  | Js.Undefined =>
      inl (TypeError ("Cannot read properties of undefined (reading '"
                      ++ k ++ "')"))
  | Js.Null =>
      inl (TypeError ("Cannot read properties of null (reading '"
                      ++ k ++ "')"))
  | Js.Obj props => inr (Js.lookup k props)
  | _ => inr Js.Undefined
  end.

(** [xs.length === 0] *)
Definition length_is_zero (xs : Js.value) : Js.thrown + bool :=
  match xs with
  | Js.Arr rows => inr (Nat.eqb (List.length rows) 0)
  | Js.Str s => inr (s =? "")
  | Js.Obj props =>
      inr match Js.lookup "length" props with
          | Js.Num (Js.Int 0) => true
          | _ => false
          end
  | Js.Undefined | Js.Null =>
      match member xs "length" with
      | inl e => inl e
      | inr _ => inr false
      end
  | _ => inr false
  end.

(** [xs.length] inside a template literal (for a string the count is in
    bytes; such a heading is never returned, [forEach] fails first). *)
Definition length_text (xs : Js.value) : string :=
  match xs with
  | Js.Arr rows => Js.string_of_nat (List.length rows)
  | Js.Str s => Js.string_of_nat (String.length s)
  | Js.Obj props => Js.to_string (Js.lookup "length" props)
  | _ => "undefined"
  end.

(** The loop [xs.forEach((x, index) => { result += ... })] when a round can
    throw. *)
Fixpoint forEach_try (block : nat -> Js.value -> Js.thrown + string)
         (index : nat) (xs : list Js.value) (result : string)
  : Js.thrown + string :=
  match xs with
  | [] => inr result
  | x :: rest =>
      match block index x with
      | inl e => inl e
      | inr text => forEach_try block (S index) rest (result ++ text)
      end
  end.

(** [xs.forEach(...)] on the value named [name] in the source: only an array
    has the method. *)
Definition forEach (name : string) (xs : Js.value)
           (block : nat -> Js.value -> Js.thrown + string) (result : string)
  : Js.thrown + string :=
  match xs with
  | Js.Arr rows => forEach_try block 0 rows result
  | _ => inl (TypeError (name ++ ".forEach is not a function"))
  end.

(** [v || fallback] inside a template literal. *)
Definition or_text (v : Js.value) (fallback : string) : string :=
  if Js.truthy v then Js.to_string v else fallback.

(** [v === 'YES'] *)
Definition is_YES (v : Js.value) : bool :=
  match v with
  | Js.Str s => s =? "YES"
  | _ => false
  end.

(** One round of the loop of [formatColumnInfo] on any value. *)
Definition column_block_any (index : nat) (column : Js.value)
  : Js.thrown + string :=
  match member column "columnName" with
  | inl e => inl e
  | inr name =>
  match member column "columnType" with
  | inl e => inl e
  | inr type_ =>
  match member column "isNullable" with
  | inl e => inl e
  | inr nullable =>
  match member column "columnDefault" with
  | inl e => inl e
  | inr default =>
  match member column "columnComment" with
  | inl e => inl e
  | inr comment =>
  match member column "extra" with
  | inl e => inl e
  | inr extra_ =>
      inr ((Js.string_of_nat (index + 1) ++ ". " ++ Js.to_string name
            ++ Js.newline)
           ++ ("   Type: " ++ Js.to_string type_ ++ Js.newline)
           ++ ("   Nullable: "
               ++ (if is_YES nullable then "✅ Yes" else "❌ No")
               ++ Js.newline)
           ++ ("   Default: " ++ or_text default "NULL" ++ Js.newline)
           ++ ("   Comment: " ++ or_text comment "No comment" ++ Js.newline)
           ++ (if Js.truthy extra_ then
                 "   Extra: " ++ Js.to_string extra_ ++ Js.newline
               else "")
           ++ (repeat_string "─" 40 ++ Js.newline))
  end end end end end end.

(** [formatColumnInfo] on any value. *)
Definition formatColumnInfo_any (columns : Js.value) : Js.thrown + string :=
  match length_is_zero columns with
  | inl e => inl e
  | inr true => inr "No columns found."
  | inr false =>
      forEach "columns" columns column_block_any
        (("Table contains " ++ length_text columns ++ " columns:"
          ++ Js.newline)
         ++ (repeat_string "═" 80 ++ Js.newline))
  end.

Section Formatting.

(** [Number.prototype.toLocaleString], which depends on the locale of the
    process. *)
Variable toLocaleString : Z -> string.

(** What one round of the loop of [formatTableInfo] appends. *)
Definition table_block (index : nat) (table : TableInfo) : string :=
  (Js.string_of_nat (index + 1) ++ ". " ++ tableName table ++ Js.newline)
  ++ ("   Type: " ++ tableType table ++ Js.newline)
  ++ ("   Engine: " ++ engine table ++ Js.newline)
  ++ ("   Rows: "
      ++ match tableRows table with
         | Some n => toLocaleString n
         | None => "Unknown"
         end
      ++ Js.newline)
  ++ ("   Comment: " ++ or_else (tableComment table) "No comment"
      ++ Js.newline)
  ++ (repeat_string "─" 40 ++ Js.newline).

Definition formatTableInfo (tables : list TableInfo) : string :=
  if Nat.eqb (List.length tables) 0 then "No tables found."
  else
    forEach_append table_block 0 tables
      (("Database contains " ++ Js.string_of_nat (List.length tables)
        ++ " tables:" ++ Js.newline)
       ++ (repeat_string "═" 80 ++ Js.newline)).

(** [v.toLocaleString()] for a value that is neither [null] nor [undefined]:
    a number goes through the locale, a string is itself, an array joins
    what its elements give. *)
Fixpoint toLocaleString_of (v : Js.value) : string :=
  match v with
  | Js.Num (Js.Int z) => toLocaleString z
  | Js.Arr xs =>
      (fix go (l : list Js.value) : string :=
         match l with
         | [] => ""
         | x :: l' =>
             match x with
             | Js.Undefined | Js.Null => ""
             | _ => toLocaleString_of x
             end
             ++ match l' with
                | [] => ""
                | _ => "," ++ go l'
                end
         end) xs
  | _ => Js.to_string v
  end.

(** [rows !== null ? rows.toLocaleString() : 'Unknown'] *)
Definition rows_text (rows : Js.value) : Js.thrown + string :=
  match rows with
  | Js.Null => inr "Unknown"
  | Js.Undefined =>
      inl (TypeError "Cannot read properties of undefined (reading 'toLocaleString')")
  | _ => inr (toLocaleString_of rows)
  end.

(** One round of the loop of [formatTableInfo] on any value. *)
Definition table_block_any (index : nat) (table : Js.value)
  : Js.thrown + string :=
  match member table "tableName" with
  | inl e => inl e
  | inr name =>
  match member table "tableType" with
  | inl e => inl e
  | inr type_ =>
  match member table "engine" with
  | inl e => inl e
  | inr engine_ =>
  match member table "tableRows" with
  | inl e => inl e
  | inr rows =>
  match rows_text rows with
  | inl e => inl e
  | inr count =>
  match member table "tableComment" with
  | inl e => inl e
  | inr comment =>
      inr ((Js.string_of_nat (index + 1) ++ ". " ++ Js.to_string name
            ++ Js.newline)
           ++ ("   Type: " ++ Js.to_string type_ ++ Js.newline)
           ++ ("   Engine: " ++ Js.to_string engine_ ++ Js.newline)
           ++ ("   Rows: " ++ count ++ Js.newline)
           ++ ("   Comment: " ++ or_text comment "No comment" ++ Js.newline)
           ++ (repeat_string "─" 40 ++ Js.newline))
  end end end end end end.

(** [formatTableInfo] on any value. *)
Definition formatTableInfo_any (tables : Js.value) : Js.thrown + string :=
  match length_is_zero tables with
  | inl e => inl e
  | inr true => inr "No tables found."
  | inr false =>
      forEach "tables" tables table_block_any
        (("Database contains " ++ length_text tables ++ " tables:"
          ++ Js.newline)
         ++ (repeat_string "═" 80 ++ Js.newline))
  end.

End Formatting.

(** ** The command line of the database module *)

Definition usage : list string :=
  ["Usage: npx tsx database-mcp.ts <command> <host> <user> <password> <database> [extra_params...]";
   "";
   "Commands:";
   "  test           - Test database connection";
   "  tables         - List all tables";
   "  columns        - Get table columns (requires table_name as extra param)";
   "  query          - Execute SQL query (requires sql as extra param)";
   "";
   "Examples:";
   "  npx tsx database-mcp.ts test localhost root password mydb";
   "  npx tsx database-mcp.ts tables localhost root password mydb";
   "  npx tsx database-mcp.ts columns localhost root password mydb users";
   "  npx tsx database-mcp.ts query localhost root password mydb "
     ++ Js.dquote ++ "SELECT COUNT(*) FROM users" ++ Js.dquote].

Fixpoint console_log_all (lines : list string) : M unit :=
  match lines with
  | [] => ret tt
  | l :: rest => console_log l ;; console_log_all rest
  end.

(** [result.success && result.data] *)
Definition success_with_data (result : DatabaseResult) : bool :=
  success result &&
  match data result with
  | Some v => Js.truthy v
  | None => false
  end.

Definition data_value (result : DatabaseResult) : Js.value :=
  match data result with
  | Some v => v
  | None => Js.Undefined
  end.

(** [JSON.stringify(v, null, 2)] inside a call of [console.log], which
    prints [undefined] as that word. *)
Definition show_json (v : Js.value) : string :=
  match Js.stringify v with
  | Some s => s
  | None => "undefined"
  end.

(** [import.meta.url === `file://${process.argv[1]}`]: the module is the
    script the process was started on. A missing [argv[1]] prints as
    [undefined]. *)
Definition run_directly (import_meta_url : string)
           (process_argv : list string) : bool :=
  import_meta_url =? "file://" ++ nth 1 process_argv "undefined".

(** [console.log(format(result.data))]: the formatter runs first, and what it
    throws is thrown here. *)
Definition console_log_formatted (formatted : Js.thrown + string) : M unit :=
  match formatted with
  | inl e => throw e
  | inr text => console_log text
  end.

Section CommandLine.

Variable drv : Mysql.Driver.

Variable toLocaleString : Z -> string.

Definition main (process_argv : list string) : M unit :=
  let args := skipn 2 process_argv in
  (if Nat.ltb (List.length args) 5 then
     console_log_all usage ;; process_exit 1
   else ret tt) ;;
  let command := nth 0 args "" in
  let host := nth 1 args "" in
  let user := nth 2 args "" in
  let password := nth 3 args "" in
  let database := nth 4 args "" in
  let extraParams := skipn 5 args in
  console_log "🚀 Starting database operation..." ;;
  console_log ("📝 Command: " ++ command) ;;
  console_log ("🏠 Host: " ++ host) ;;
  console_log ("👤 User: " ++ user) ;;
  console_log ("🗄️  Database: " ++ database) ;;
  console_log "" ;;
  try_catch
    (result <-
       (if command =? "test" then
          testConnection drv host user password database None
        else if command =? "tables" then
          result <- getTables drv host user password database None ;;
          (if success_with_data result then
             console_log_formatted
               (formatTableInfo_any toLocaleString (data_value result))
           else ret tt) ;;
          ret result
        else if command =? "columns" then
          (if Nat.eqb (List.length extraParams) 0 then
             console_error "❌ Table name is required for columns command" ;;
             process_exit 1
           else ret tt) ;;
          let tableName := nth 0 extraParams "" in
          result <- getTableColumns drv host user password database
                      tableName None ;;
          (if success_with_data result then
             console_log_formatted (formatColumnInfo_any (data_value result))
           else ret tt) ;;
          ret result
        else if command =? "query" then
          (if Nat.eqb (List.length extraParams) 0 then
             console_error "❌ SQL query is required for query command" ;;
             process_exit 1
           else ret tt) ;;
          let sql := nth 0 extraParams "" in
          result <- executeQuery drv host user password database sql
                      None None ;;
          (if success_with_data result then
             console_log ("Query result: " ++ show_json (data_value result))
           else ret tt) ;;
          ret result
        else
          console_error ("❌ Unknown command: " ++ command) ;;
          process_exit 1) ;;
     if success result then
       console_log ("✅ " ++ message result)
     else
       console_error ("❌ " ++ message result) ;;
       (match error result with
        | Some e => if negb (e =? "") then
                      console_error ("   Error details: " ++ e)
                    else ret tt
        | None => ret tt
        end) ;;
       process_exit 1)
    (fun error =>
       emit (ConsoleErrorWith "
❌ Operation failed:" error) ;;
       process_exit 1).

(** [if (import.meta.url === `file://${process.argv[1]}`)
    { main().catch(console.error); }] *)
Definition script (import_meta_url : string) (process_argv : list string)
  : M unit :=
  if run_directly import_meta_url process_argv then
    try_catch (main process_argv)
              (fun error => emit (ConsoleErrorWith "" error))
  else ret tt.

(** The exit code of the process that runs the script: the argument of
    [process.exit], or 0 when the script runs to its end. *)
Definition exit_code (import_meta_url : string) (process_argv : list string)
  : Z :=
  match script import_meta_url process_argv {| connection := None |} with
  | (Exited code, _, _) => code
  | (Returned _, _, _) => 0
  | (Threw _, _, _) => 1
  end%Z.

End CommandLine.

(** ** The MCP server *)

Definition is_string (v : Js.value) : bool :=
  Js.type_tag_eqb (Js.typeof v) Js.TString.

Definition is_number (v : Js.value) : bool :=
  Js.type_tag_eqb (Js.typeof v) Js.TNumber.

Definition isDatabaseConnectionArgs (args : Js.value) : bool :=
  Js.truthy args &&
  is_string (Js.get args "host") &&
  is_string (Js.get args "user") &&
  is_string (Js.get args "password") &&
  is_string (Js.get args "database") &&
  (Js.is_undefined (Js.get args "port") || is_number (Js.get args "port")).

Definition isGetTableColumnsArgs (args : Js.value) : bool :=
  Js.truthy args &&
  is_string (Js.get args "host") &&
  is_string (Js.get args "user") &&
  is_string (Js.get args "password") &&
  is_string (Js.get args "database") &&
  is_string (Js.get args "tableName") &&
  (Js.is_undefined (Js.get args "port") || is_number (Js.get args "port")).

Definition isExecuteQueryArgs (args : Js.value) : bool :=
  Js.truthy args &&
  is_string (Js.get args "host") &&
  is_string (Js.get args "user") &&
  is_string (Js.get args "password") &&
  is_string (Js.get args "database") &&
  is_string (Js.get args "query") &&
  (Js.is_undefined (Js.get args "port") || is_number (Js.get args "port")) &&
  (Js.is_undefined (Js.get args "params") || Js.isArray (Js.get args "params")).

(** The tool list of the [ListToolsRequestSchema] handler: the names and the
    [required] arrays of the four input schemas, in the order of the source. *)
Record Tool := {
  tool_name : string;
  tool_required : list string
}.

Definition tools : list Tool :=
  [{| tool_name := "get_table_columns";
      tool_required := ["host"; "user"; "password"; "database"; "tableName"] |};
   {| tool_name := "get_tables";
      tool_required := ["host"; "user"; "password"; "database"] |};
   {| tool_name := "execute_query";
      tool_required := ["host"; "user"; "password"; "database"; "query"] |};
   {| tool_name := "test_connection";
      tool_required := ["host"; "user"; "password"; "database"] |}].

Record TextContent := {
  type : string;
  text : string
}.

(** What the call handler answers; [isError] is an optional member. *)
Record CallToolResult := {
  content : list TextContent;
  isError : option bool
}.

(** A guarded field read at its TypeScript type: after the type guard
    [args.host] is a string, [args.port] a number or [undefined], and
    [args.params] an array or [undefined]. *)
Definition string_field (args : Js.value) (k : string) : string :=
  match Js.get args k with
  | Js.Str s => s
  | _ => ""
  end.

Definition number_field (args : Js.value) (k : string) : option Js.number :=
  match Js.get args k with
  | Js.Num n => Some n
  | _ => None
  end.

Definition array_field (args : Js.value) (k : string)
  : option (list Js.value) :=
  match Js.get args k with
  | Js.Arr xs => Some xs
  | _ => None
  end.

(** The object literal a database function returns, as a value: an absent
    member is [undefined], which JSON.stringify leaves out. *)
Definition result_value (r : DatabaseResult) : Js.value :=
  Js.Obj [("success", Js.Bool (success r));
          ("data", data_value r);
          ("error", match error r with
                    | Some e => Js.Str e
                    | None => Js.Undefined
                    end);
          ("message", Js.Str (message r))].

Definition text_response (t : string) (flag : option bool) : CallToolResult :=
  {| content := [{| type := "text"; text := t |}]; isError := flag |}.

Section Server.

Variable drv : Mysql.Driver.

(** The body of the [switch (name)] of the call handler. *)
Definition dispatch (name : string) (args : Js.value) : M DatabaseResult :=
  if name =? "get_table_columns" then
    if negb (isGetTableColumnsArgs args) then
      throw (Js.Error "Invalid arguments for get_table_columns. Required: host, user, password, database, tableName")
    else
      getTableColumns drv
        (string_field args "host") (string_field args "user")
        (string_field args "password") (string_field args "database")
        (string_field args "tableName") (number_field args "port")
  else if name =? "get_tables" then
    if negb (isDatabaseConnectionArgs args) then
      throw (Js.Error "Invalid arguments for get_tables. Required: host, user, password, database")
    else
      getTables drv
        (string_field args "host") (string_field args "user")
        (string_field args "password") (string_field args "database")
        (number_field args "port")
  else if name =? "execute_query" then
    if negb (isExecuteQueryArgs args) then
      throw (Js.Error "Invalid arguments for execute_query. Required: host, user, password, database, query")
    else
      executeQuery drv
        (string_field args "host") (string_field args "user")
        (string_field args "password") (string_field args "database")
        (string_field args "query") (array_field args "params")
        (number_field args "port")
  else if name =? "test_connection" then
    if negb (isDatabaseConnectionArgs args) then
      throw (Js.Error "Invalid arguments for test_connection. Required: host, user, password, database")
    else
      testConnection drv
        (string_field args "host") (string_field args "user")
        (string_field args "password") (string_field args "database")
        (number_field args "port")
  else
    throw (Js.Error ("Unknown tool: " ++ name)).

(** The [CallToolRequestSchema] handler, on [request.params.name] and
    [request.params.arguments]. *)
Definition call_tool (name : string) (args : Js.value) : M CallToolResult :=
  if negb (Js.truthy args)
     || negb (Js.type_tag_eqb (Js.typeof args) Js.TObject) then
    ret (text_response "Error: Missing or invalid arguments" (Some true))
  else
    try_catch
      (result <- dispatch name args ;;
       ret (text_response (show_json (result_value result)) None))
      (fun error =>
         ret (text_response ("Error: " ++ message_or error "Unknown error")
                            (Some true))).

End Server.

(** ** The chat composer: the height of the text area *)

(** The text area behind [textareaRef]: its [style.height] and the
    [scrollHeight] the layout reports under each [style.height]. *)
Record Textarea := {
  style_height : string;
  layout : string -> Z
}.

Definition scrollHeight (textarea : Textarea) : Z :=
  layout textarea (style_height textarea).

Definition set_style_height (textarea : Textarea) (h : string) : Textarea :=
  {| style_height := h; layout := layout textarea |}.

(** [adjustTextareaHeight], on [textareaRef.current] ([None] is [null]): the
    text area afterwards and what is logged. *)
Definition adjustTextareaHeight (current : option Textarea)
  : option Textarea * list Event :=
  match current with
  | None => (None, [])
  | Some textarea =>
      let textarea := set_style_height textarea "auto" in
      let minHeight := 60%Z in
      let maxHeight := 200%Z in
      let scrollHeight := scrollHeight textarea in
      let newHeight := Z.min (Z.max scrollHeight minHeight) maxHeight in
      (Some (set_style_height textarea (Js.string_of_Z newHeight ++ "px")),
       [ConsolePrint "Textarea height adjusted:"
          (Js.Obj [("scrollHeight", Js.Num (Js.Int scrollHeight));
                   ("newHeight", Js.Num (Js.Int newHeight))])])
  end.

(** * Properties *)

(** ** Vocabulary of the statements *)

Definition completion {A} (r : Completion A * Frame * list Event)
  : Completion A := fst (fst r).

Definition trace {A} (r : Completion A * Frame * list Event)
  : list Event := snd r.

(** A call of one of the four exported database functions, with its
    arguments. *)
Inductive Call :=
| GetTableColumns (host user password database tableName : string)
                  (port : option Js.number)
| GetTables (host user password database : string) (port : option Js.number)
| ExecuteQuery (host user password database query : string)
               (params : option (list Js.value)) (port : option Js.number)
| TestConnection (host user password database : string)
                 (port : option Js.number).

Definition invoke (drv : Mysql.Driver) (c : Call) : M DatabaseResult :=
  match c with
  | GetTableColumns h u p d t port => getTableColumns drv h u p d t port
  | GetTables h u p d port => getTables drv h u p d port
  | ExecuteQuery h u p d q ps port => executeQuery drv h u p d q ps port
  | TestConnection h u p d port => testConnection drv h u p d port
  end.

Definition port_of (c : Call) : option Js.number :=
  match c with
  | GetTableColumns _ _ _ _ _ port | GetTables _ _ _ _ port
  | ExecuteQuery _ _ _ _ _ _ port | TestConnection _ _ _ _ port => port
  end.

(** The options the call hands to the driver. *)
Definition options_of (c : Call) : Mysql.ConnectionOptions :=
  match c with
  | GetTableColumns h u p d _ port | GetTables h u p d port
  | ExecuteQuery h u p d _ _ port | TestConnection h u p d port =>
      {| Mysql.host := h; Mysql.user := u; Mysql.password := p;
         Mysql.database := d; Mysql.port := port_or_default port |}
  end.

(** The one statement of the call and its bind parameters. *)
Definition statement_of (c : Call) : string * option (list Js.value) :=
  match c with
  | GetTableColumns _ _ _ d t _ =>
      (getTableColumns_sql, Some [Js.Str d; Js.Str t])
  | GetTables _ _ _ d _ => (getTables_sql, Some [Js.Str d])
  | ExecuteQuery _ _ _ _ q ps _ => (q, ps)
  | TestConnection _ _ _ _ _ => ("SELECT 1", None)
  end.

(** What reaches the [catch] of the database function when the driver raises
    while the connection is opened ([createConnection] wraps that error) or
    while the statement runs; [None] when neither raises. *)
Definition caught (drv : Mysql.Driver) (c : Call) : option Js.thrown :=
  match Mysql.connect drv (options_of c) with
  | inl e => Some (Js.Error ("Failed to connect to database: "
                             ++ message_or e "Unknown error"))
  | inr conn =>
      match Mysql.execute drv conn (fst (statement_of c))
                          (snd (statement_of c)) with
      | inl e => Some e
      | inr _ => None
      end
  end.

(** How the [message] of a caught failure starts. *)
Definition failure_prefix (c : Call) : string :=
  match c with
  | GetTableColumns _ _ _ _ t _ => "Failed to get columns for table " ++ t ++ ": "
  | GetTables _ _ _ d _ => "Failed to get tables from database " ++ d ++ ": "
  | ExecuteQuery _ _ _ _ _ _ _ => "Failed to execute query: "
  | TestConnection h _ _ d _ =>
      "Failed to connect to database " ++ d ++ "@" ++ h ++ ": "
  end.

Definition is_connect (e : Event) : bool :=
  match e with DriverConnect _ => true | _ => false end.

Definition is_end (e : Event) : bool :=
  match e with DriverEnd _ => true | _ => false end.

(** How many times the trace opens, and closes, a connection. *)
Definition opens (t : list Event) : nat := List.length (filter is_connect t).

Definition closes (t : list Event) : nat := List.length (filter is_end t).

(** [port] is omitted or falsy. *)
Definition falsy_port (port : option Js.number) : bool :=
  match port with
  | None => true
  | Some n => negb (Js.number_truthy n)
  end.

(** The envelope invariant of [DatabaseResult]: exactly one of the two
    shapes holds, and a failure carries no data. *)
Definition success_shape (r : DatabaseResult) : Prop := success r = true.

Definition failure_shape (r : DatabaseResult) : Prop :=
  success r = false /\ message r <> "".

Definition envelope (r : DatabaseResult) : Prop :=
  (success_shape r /\ ~ failure_shape r \/ ~ success_shape r /\ failure_shape r)
  /\ (success r = false -> data r = None).

(** A handler's first test: [!args || typeof args !== 'object'] is false. *)
Definition is_object (args : Js.value) : bool :=
  Js.truthy args && Js.type_tag_eqb (Js.typeof args) Js.TObject.

(** [name] is one of the four names of the tool list. *)
Definition registered (name : string) : bool :=
  existsb (String.eqb name) (map tool_name tools).

(** The type guard the [switch] applies under each registered name. *)
Definition type_guard (name : string) : Js.value -> bool :=
  if name =? "get_table_columns" then isGetTableColumnsArgs
  else if name =? "execute_query" then isExecuteQueryArgs
  else isDatabaseConnectionArgs.

(** The database call the [switch] makes for a registered name whose guard
    accepts the arguments. *)
Definition validated (name : string) (args : Js.value) : option Call :=
  if registered name && type_guard name args then
    let h := string_field args "host" in
    let u := string_field args "user" in
    let p := string_field args "password" in
    let d := string_field args "database" in
    let port := number_field args "port" in
    if name =? "get_table_columns" then
      Some (GetTableColumns h u p d (string_field args "tableName") port)
    else if name =? "get_tables" then Some (GetTables h u p d port)
    else if name =? "execute_query" then
      Some (ExecuteQuery h u p d (string_field args "query")
                         (array_field args "params") port)
    else Some (TestConnection h u p d port)
  else None.

(** The validation policy in the words of the tool list: every field of
    [required] is a string, [port] is absent or a number and, for
    [execute_query], [params] is absent or an array. *)
Definition well_typed_arguments (t : Tool) (args : Js.value) : bool :=
  Js.truthy args
  && forallb (fun k => is_string (Js.get args k)) (tool_required t)
  && (Js.is_undefined (Js.get args "port") || is_number (Js.get args "port"))
  && (if tool_name t =? "execute_query" then
        Js.is_undefined (Js.get args "params")
        || Js.isArray (Js.get args "params")
      else true).

(** The text of the error a rejected call of a tool carries. *)
Definition invalid_arguments_text (t : Tool) : string :=
  "Error: Invalid arguments for " ++ tool_name t ++ ". Required: "
  ++ Js.join ", " (tool_required t).

(** The statement that every call under an unregistered name gets an
    error-flagged response whose text includes the name. *)
Definition unknown_tool_text_names_tool : Prop :=
  forall drv name args f,
    registered name = false ->
    exists resp,
      completion (call_tool drv name args f) = Returned resp
      /\ isError resp = Some true
      /\ exists c, In c (content resp) /\ Js.includes (text c) name = true.

(** The database call [main] makes for its arguments, when it makes one:
    the five leading arguments are there, the command is one of the four,
    and [columns] and [query] have their extra argument. *)
Definition selected_call (args : list string) : option Call :=
  if Nat.ltb (List.length args) 5 then None
  else
    let command := nth 0 args "" in
    let host := nth 1 args "" in
    let user := nth 2 args "" in
    let password := nth 3 args "" in
    let database := nth 4 args "" in
    if command =? "test" then
      Some (TestConnection host user password database None)
    else if command =? "tables" then
      Some (GetTables host user password database None)
    else if command =? "columns" then
      match skipn 5 args with
      | [] => None
      | tableName :: _ =>
          Some (GetTableColumns host user password database tableName None)
      end
    else if command =? "query" then
      match skipn 5 args with
      | [] => None
      | sql :: _ =>
          Some (ExecuteQuery host user password database sql None None)
      end
    else None.

(** The calls of the trace that reach the driver, in order. *)
Definition is_driver (e : Event) : bool :=
  match e with
  | DriverConnect _ | DriverExecute _ _ _ | DriverEnd _ => true
  | _ => false
  end.

Definition driver_events (t : list Event) : list Event := filter is_driver t.

(** What the driver answers to the statement of the call, when the
    connection opens and the statement runs. *)
Definition answered (drv : Mysql.Driver) (c : Call)
  : option (Mysql.QueryResult * Js.value) :=
  match Mysql.connect drv (options_of c) with
  | inl _ => None
  | inr conn =>
      match Mysql.execute drv conn (fst (statement_of c))
                          (snd (statement_of c)) with
      | inl _ => None
      | inr res => Some res
      end
  end.

(** [getTableColumns] alone looks at the answer: it wants a row. *)
Definition wants_rows (c : Call) : bool :=
  match c with
  | GetTableColumns _ _ _ _ _ _ => true
  | _ => false
  end.

Definition has_rows (res : Mysql.QueryResult * Js.value) : bool :=
  Mysql.gt_zero (Mysql.length (fst res)).

(** The [data] member of a success, by function. *)
Definition success_data (c : Call) (res : Mysql.QueryResult * Js.value)
  : option Js.value :=
  match c with
  | GetTableColumns _ _ _ _ _ _ | GetTables _ _ _ _ _ =>
      Some (Mysql.to_value (fst res))
  | ExecuteQuery _ _ _ _ _ _ _ =>
      Some (Js.Obj [("rows", Mysql.to_value (fst res)); ("fields", snd res)])
  | TestConnection _ _ _ _ _ => None
  end.

(** The text of the response to a call the handler does not forward. *)
Definition refusal_text (name : string) : string :=
  if name =? "get_table_columns" then
    "Error: Invalid arguments for get_table_columns. Required: host, user, password, database, tableName"
  else if name =? "get_tables" then
    "Error: Invalid arguments for get_tables. Required: host, user, password, database"
  else if name =? "execute_query" then
    "Error: Invalid arguments for execute_query. Required: host, user, password, database, query"
  else if name =? "test_connection" then
    "Error: Invalid arguments for test_connection. Required: host, user, password, database"
  else "Error: Unknown tool: " ++ name.

(** The rounds of a formatter's loop, one after the other. *)
Fixpoint blocks {A} (block : nat -> A -> string) (index : nat) (xs : list A)
  : string :=
  match xs with
  | [] => ""
  | x :: rest => block index x ++ blocks block (S index) rest
  end.

(** The run of the script from the frame of a fresh process. *)
Definition run_script (drv : Mysql.Driver) (toLocaleString : Z -> string)
           (import_meta_url : string) (process_argv : list string)
  : Completion unit * Frame * list Event :=
  script drv toLocaleString import_meta_url process_argv
         {| connection := None |}.

(** What printing the result of the selected call throws in [main]: the
    formatter of [tables] and of [columns] runs on a success that has data;
    [test] and [query] print nothing that can throw. *)
Definition display_error (toLocaleString : Z -> string) (c : Call)
           (r : DatabaseResult) : option Js.thrown :=
  if success_with_data r then
    match c with
    | GetTables _ _ _ _ _ =>
        match formatTableInfo_any toLocaleString (data_value r) with
        | inl e => Some e
        | inr _ => None
        end
    | GetTableColumns _ _ _ _ _ _ =>
        match formatColumnInfo_any (data_value r) with
        | inl e => Some e
        | inr _ => None
        end
    | _ => None
    end
  else None.

(** A row of its declared type, as the driver hands it over. *)
Definition column_value (column : ColumnInfo) : Js.value :=
  Js.Obj [("columnName", Js.Str (columnName column));
          ("columnType", Js.Str (columnType column));
          ("isNullable", Js.Str (isNullable column));
          ("columnComment", Js.Str (columnComment column));
          ("columnDefault", match columnDefault column with
                            | Some s => Js.Str s
                            | None => Js.Null
                            end);
          ("extra", Js.Str (extra column))].

Definition table_value (table : TableInfo) : Js.value :=
  Js.Obj [("tableName", Js.Str (tableName table));
          ("tableComment", Js.Str (tableComment table));
          ("tableType", Js.Str (tableType table));
          ("engine", Js.Str (engine table));
          ("tableRows", match tableRows table with
                        | Some n => Js.Num (Js.Int n)
                        | None => Js.Null
                        end)].

(** The text of [JSON.stringify(result, null, 2)] for a failure: the members
    [success], [error] when there is one, and [message], two spaces deep. *)
Definition failure_text (error : option string) (message : string) : string :=
  "{" ++ Js.newline
  ++ "  " ++ Js.dquote ++ "success" ++ Js.dquote ++ ": false," ++ Js.newline
  ++ match error with
     | Some e =>
         "  " ++ Js.dquote ++ "error" ++ Js.dquote ++ ": " ++ Js.quote e
         ++ "," ++ Js.newline
     | None => ""
     end
  ++ "  " ++ Js.dquote ++ "message" ++ Js.dquote ++ ": " ++ Js.quote message
  ++ Js.newline
  ++ "}".

(** The statement that no call of a database function throws, and that a
    call in which the driver raised returns a failure. *)
Definition database_functions_never_throw : Prop :=
  forall drv call f,
    exists r,
      completion (invoke drv call f) = Returned r
      /\ (forall e, caught drv call = Some e -> success r = false).


(** ** Sample drivers, for the concrete runs *)

Module Sample.

(** A server that accepts the connection and answers every statement with
    the given rows. *)
Definition serving (rows : list Js.value) : Mysql.Driver :=
  {| Mysql.connect := fun _ => inr 1;
     Mysql.execute := fun _ _ _ => inr (Mysql.RowDataPackets rows, Js.Arr []);
     Mysql.end_ := fun _ => None |}.

(** No server listens. *)
Definition unreachable : Mysql.Driver :=
  {| Mysql.connect := fun _ => inl (Js.Error "connect ECONNREFUSED");
     Mysql.execute := fun _ _ _ => inr (Mysql.RowDataPackets [], Js.Arr []);
     Mysql.end_ := fun _ => None |}.

(** The connection opens and the statement is rejected. *)
Definition rejecting : Mysql.Driver :=
  {| Mysql.connect := fun _ => inr 1;
     Mysql.execute := fun _ _ _ => inl (Js.Error "You have an error in your SQL syntax");
     Mysql.end_ := fun _ => None |}.

(** The statement is rejected and closing the connection fails too. *)
Definition broken_close : Mysql.Driver :=
  {| Mysql.connect := fun _ => inr 1;
     Mysql.execute := fun _ _ _ => inl (Js.Error "You have an error in your SQL syntax");
     Mysql.end_ := fun _ => Some (Js.Error "socket closed") |}.

Definition frame : Frame := {| connection := None |}.

Definition row (name : string) : Js.value :=
  Js.Obj [("tableName", Js.Str name)].

(** The arguments object of a well-formed request. *)
Definition arguments : Js.value :=
  Js.Obj [("host", Js.Str "db.local"); ("user", Js.Str "root");
          ("password", Js.Str "pw"); ("database", Js.Str "shop");
          ("port", Js.Num (Js.Int 3307))].

Definition id_column : ColumnInfo :=
  {| columnName := "id"; columnType := "int"; isNullable := "NO";
     columnComment := ""; columnDefault := None; extra := "auto_increment" |}.

(** A text area whose content is [content] pixels high: the layout reports
    the content under [auto] and 60 under any fixed height. *)
Definition textarea (content : Z) : Textarea :=
  {| style_height := "60px";
     layout := fun h => if h =? "auto" then content else 60%Z |}.

Definition orders_table : TableInfo :=
  {| tableName := "orders"; tableComment := ""; tableType := "BASE TABLE";
     engine := "InnoDB"; tableRows := Some 1200%Z |}.

(** The script started as [node /srv/database-mcp.ts ...]. *)
Definition url : string := "file:///srv/database-mcp.ts".

Definition command_line (args : list string) : list string :=
  "node" :: "/srv/database-mcp.ts" :: args.

(** The same script in a directory whose name has a space: the URL of the
    module writes the space as [%20]. *)
Definition spaced_url : string := "file:///srv/my%20tools/database-mcp.ts".

Definition spaced_command_line (args : list string) : list string :=
  "node" :: "/srv/my tools/database-mcp.ts" :: args.

End Sample.

(** ** Running the database functions *)

Arguments getTableColumns_sql : simpl never.
Arguments getTables_sql : simpl never.

Ltac unfold_database :=
  unfold invoke, getTableColumns, getTables, executeQuery, testConnection,
    createConnection, release_connection, mysql_createConnection,
    connection_execute, connection_end, try_finally, try_catch, bind, ret,
    throw, emit, console_log, console_error, get_connection, set_connection,
    completion, trace.

Ltac split_driver :=
  repeat match goal with
    | |- context [Mysql.connect ?d ?o] =>
        let E := fresh "Econnect" in destruct (Mysql.connect d o) eqn:E; cbn
    | |- context [Mysql.execute ?d ?c ?s ?p] =>
        let E := fresh "Eexecute" in
        destruct (Mysql.execute d c s p) as [?|[? ?]] eqn:E; cbn
    | |- context [Mysql.end_ ?d ?c] =>
        let E := fresh "Eend" in destruct (Mysql.end_ d c) eqn:E; cbn
    | |- context [Mysql.gt_zero ?n] =>
        let E := fresh "Elength" in destruct (Mysql.gt_zero n) eqn:E; cbn
    end.

Ltac run_database := unfold_database; cbn; split_driver.

(** A database function does not read the frame it starts in: its first
    statement is [let connection = null]. *)
Lemma invoke_frame drv call f f' : invoke drv call f = invoke drv call f'.
Proof. destruct call; reflexivity. Qed.

(** Every call asks the driver for a connection, so a trace without a
    [DriverConnect] shows that no database function ran. *)
Lemma invoke_connects drv call f :
  In (DriverConnect (options_of call)) (trace (invoke drv call f)).
Proof.
  destruct call; run_database; auto 8 with datatypes.
Qed.

Lemma append_assoc (a b c : string) : (a ++ b) ++ c = a ++ (b ++ c).
Proof. induction a as [|x a IH]; cbn; [reflexivity | now rewrite IH]. Qed.

Lemma append_empty_r (a : string) : a ++ "" = a.
Proof. induction a as [|x a IH]; cbn; [reflexivity | now rewrite IH]. Qed.

(** Equal strings up to the bracketing of [++]. *)
Ltac normalize_append :=
  cbn; repeat (rewrite append_assoc; cbn); reflexivity.

(** ** The connection is opened once and closed once *)

(** C4: every call of a database function asks the driver for one
    connection; when the driver grants it, the call closes that connection
    exactly once, as its last driver action, whether the statement succeeded
    or failed and whether closing succeeded; when the driver refuses, nothing
    is closed. *)
Theorem one_open_one_close drv call f :
  let t := trace (invoke drv call f) in
  opens t = 1 /\
  match Mysql.connect drv (options_of call) with
  | inr conn => closes t = 1 /\ last t (ConsoleLog "") = DriverEnd conn
  | inl _ => closes t = 0
  end.
Proof.
  destruct call; run_database; auto.
Qed.

(** ** The default port *)

(** [createConnection] makes one request to the driver, with the port
    [config.port || 3306]. *)
Lemma createConnection_request drv config f :
  trace (createConnection drv config f)
  = [DriverConnect {| Mysql.host := cfg_host config;
                      Mysql.user := cfg_user config;
                      Mysql.password := cfg_password config;
                      Mysql.database := cfg_database config;
                      Mysql.port := port_or_default (cfg_port config) |}].
Proof. run_database; reflexivity. Qed.

(** C10: when [port] is omitted or falsy (0 or NaN), every database function
    asks the driver for port 3306: that request is in the trace and no
    request of the trace names another port. *)
Theorem falsy_port_becomes_3306 drv call f :
  falsy_port (port_of call) = true ->
  Mysql.port (options_of call) = Js.Int 3306 /\
  In (DriverConnect (options_of call)) (trace (invoke drv call f)) /\
  forall opts, In (DriverConnect opts) (trace (invoke drv call f)) ->
               Mysql.port opts = Js.Int 3306.
Proof.
  intros Hfalsy.
  assert (Hport : port_or_default (port_of call) = Js.Int 3306).
  { unfold port_or_default, falsy_port in *.
    destruct (port_of call) as [n|]; [|reflexivity].
    destruct (Js.number_truthy n); [discriminate | reflexivity]. }
  split; [destruct call; exact Hport|].
  split; [apply invoke_connects|].
  intros opts Hin.
  destruct call; cbn in Hport; revert Hin; run_database;
    intros Hin; repeat (destruct Hin as [Hin|Hin]; [|]);
      try contradiction; try discriminate;
      injection Hin as <-; exact Hport.
Qed.

Lemma falsy_port_becomes_3306_witness :
  Mysql.port (options_of (GetTables "db.local" "root" "pw" "shop"
                                    (Some (Js.Int 0)))) = Js.Int 3306 /\
  ~ In (DriverConnect {| Mysql.host := "db.local"; Mysql.user := "root";
                         Mysql.password := "pw"; Mysql.database := "shop";
                         Mysql.port := Js.Int 0 |})
       (trace (invoke (Sample.serving [])
                 (GetTables "db.local" "root" "pw" "shop" (Some (Js.Int 0)))
                 Sample.frame)).
Proof.
  pose proof (falsy_port_becomes_3306 (Sample.serving [])
                (GetTables "db.local" "root" "pw" "shop" (Some (Js.Int 0)))
                Sample.frame eq_refl) as [Hport [_ Hall]].
  split; [exact Hport|].
  intros Hin. apply Hall in Hin. discriminate Hin.
Defined.

(** A truthy port is forwarded as it is. *)
Lemma truthy_port_forwarded port :
  Js.number_truthy port = true -> port_or_default (Some port) = port.
Proof. intros H. unfold port_or_default. rewrite H. reflexivity. Qed.

(** ** Driver errors become failure results *)

(** With a driver whose [end()] resolves, a database function returns. *)
Lemma invoke_returns drv call f :
  (forall conn, Mysql.end_ drv conn = None) ->
  exists r, completion (invoke drv call f) = Returned r.
Proof.
  intros Hend.
  destruct call; run_database;
    try (rewrite Hend in *; discriminate); eexists; reflexivity.
Qed.

(** C3, amended: with a driver whose [end()] resolves, each of the four database
    functions returns a result, whatever the driver does while the
    connection is opened and while the statement runs; when the driver
    raises at either point, the result has [success = false], the error
    string of what was raised, and a message made of the function's prefix
    and that error. *)
Theorem driver_errors_are_returned drv call f :
  (forall conn, Mysql.end_ drv conn = None) ->
  exists r,
    completion (invoke drv call f) = Returned r /\
    forall e, caught drv call = Some e ->
      success r = false /\
      error r = Some (message_or e "Unknown error occurred") /\
      message r = failure_prefix call ++ message_or e "Unknown error" /\
      message r <> "".
Proof.
  intros Hend. unfold caught.
  destruct call; run_database;
    try (rewrite Hend in *; discriminate);
    (eexists; split; [reflexivity|]);
    intros e He; try discriminate; injection He as <-; cbn;
    (split; [reflexivity|]); (split; [reflexivity|]);
    (split; [normalize_append | discriminate]).
Qed.

Lemma driver_errors_are_returned_witness :
  exists r,
    completion (invoke Sample.rejecting
                  (ExecuteQuery "db.local" "root" "pw" "shop" "SELEC 1"
                                None None) Sample.frame) = Returned r /\
    success r = false /\
    error r = Some "You have an error in your SQL syntax" /\
    message r = "Failed to execute query: You have an error in your SQL syntax".
Proof.
  destruct (driver_errors_are_returned Sample.rejecting
              (ExecuteQuery "db.local" "root" "pw" "shop" "SELEC 1" None None)
              Sample.frame (fun _ => eq_refl)) as [r [Hr Hcaught]].
  exists r. split; [exact Hr|].
  destruct (Hcaught (Js.Error "You have an error in your SQL syntax") eq_refl)
    as [Hs [He [Hm _]]].
  repeat split; assumption.
Defined.

(** The [finally] block is outside the [catch]: an [end()] that rejects is
    what the caller receives. *)
Lemma rejected_end_escapes drv call f conn e :
  Mysql.connect drv (options_of call) = inr conn ->
  Mysql.end_ drv conn = Some e ->
  completion (invoke drv call f) = Threw e.
Proof.
  intros Hconnect Hend.
  destruct call; cbn in Hconnect; unfold_database; cbn;
    rewrite Hconnect; cbn; split_driver;
    try reflexivity; congruence.
Qed.

(** C3 fails when [end()] rejects: the statement error is caught and turned
    into a result, and then the [finally] block throws what [end()] raised,
    which the caller receives instead of the result. *)
Lemma statement_error_with_rejected_end : ~ database_functions_never_throw.
Proof.
  intros Hall.
  destruct (Hall Sample.broken_close
                 (ExecuteQuery "db.local" "root" "pw" "shop" "SELEC 1"
                               None None) Sample.frame) as [r [Hr _]].
  discriminate Hr.
Qed.

(** ** The result envelope *)

(** C6: every result a database function returns has exactly one of the two
    shapes (success, or failure with a message) and a failure has no data;
    and with a driver whose [end()] resolves, a result is returned. *)
Theorem results_satisfy_envelope drv call f :
  (forall r, completion (invoke drv call f) = Returned r -> envelope r) /\
  ((forall conn, Mysql.end_ drv conn = None) ->
   exists r, completion (invoke drv call f) = Returned r).
Proof.
  split; [|apply invoke_returns].
  unfold envelope, success_shape, failure_shape.
  destruct call; run_database; intros r Hr;
    try discriminate; injection Hr as <-; cbn;
    (split; [|try reflexivity; discriminate]);
    solve [ left; split; [reflexivity | intros [? _]; discriminate]
          | right; split; [discriminate | split; [reflexivity | discriminate]] ].
Qed.

Lemma results_satisfy_envelope_witness :
  envelope {| success := false; data := None;
              error := Some "Failed to connect to database: connect ECONNREFUSED";
              message := "Failed to get tables from database shop: Failed to connect to database: connect ECONNREFUSED" |}
  /\ exists r, completion (invoke Sample.unreachable
                             (GetTables "db.local" "root" "pw" "shop" None)
                             Sample.frame) = Returned r.
Proof.
  destruct (results_satisfy_envelope Sample.unreachable
              (GetTables "db.local" "root" "pw" "shop" None) Sample.frame)
    as [Henv Hret].
  split; [apply Henv; reflexivity | apply Hret; intros conn; reflexivity].
Defined.

(** ** Substrings *)

Lemma prefix_of_append s b : Js.prefix_of s (s ++ b) = true.
Proof.
  induction s as [|x s IH]; cbn; [reflexivity|].
  rewrite Ascii.eqb_refl. exact IH.
Qed.

Lemma includes_prefix s sub : Js.prefix_of sub s = true -> Js.includes s sub = true.
Proof. intros H. destruct s; cbn; rewrite H; reflexivity. Qed.

Lemma includes_append_l a s sub :
  Js.includes s sub = true -> Js.includes (a ++ s) sub = true.
Proof.
  intros H. induction a as [|x a IH]; cbn; [exact H|].
  rewrite IH. apply orb_true_r.
Qed.

(** A text includes each piece it is assembled from. *)
Lemma includes_middle a s b : Js.includes (a ++ s ++ b) s = true.
Proof. apply includes_append_l, includes_prefix, prefix_of_append. Qed.

Lemma includes_end a s : Js.includes (a ++ s) s = true.
Proof.
  rewrite <- (append_empty_r s) at 1. apply includes_middle.
Qed.

(** ** Columns of a table: no row is a failure *)

(** C1: when the connection opens, the catalog query answers with rows and
    the connection closes, [getTableColumns] returns a result; with zero rows
    the result has [success = false], no data and the message
    "Table T does not exist or has no columns in database D", which includes
    both names; with one row or more it has [success = true] and exactly
    those rows as data. *)
Theorem getTableColumns_by_row_count
        drv host user password database tableName port f conn rows fields :
  Mysql.connect drv
    {| Mysql.host := host; Mysql.user := user; Mysql.password := password;
       Mysql.database := database; Mysql.port := port_or_default port |}
    = inr conn ->
  Mysql.execute drv conn getTableColumns_sql
    (Some [Js.Str database; Js.Str tableName])
    = inr (Mysql.RowDataPackets rows, fields) ->
  Mysql.end_ drv conn = None ->
  exists r,
    completion (getTableColumns drv host user password database tableName
                                port f) = Returned r /\
    (rows = [] ->
       success r = false /\ data r = None /\
       message r = "Table " ++ tableName
                   ++ " does not exist or has no columns in database "
                   ++ database /\
       Js.includes (message r) tableName = true /\
       Js.includes (message r) database = true) /\
    (rows <> [] -> success r = true /\ data r = Some (Js.Arr rows)).
Proof.
  intros Hconnect Hexecute Hend.
  unfold_database; cbn.
  rewrite Hconnect; cbn. rewrite Hexecute; cbn.
  destruct rows as [|row rows]; cbn; rewrite Hend; cbn;
    eexists; (split; [reflexivity|]); split; intros Hrows;
    try discriminate; try congruence; cbn.
  - split; [reflexivity|]. split; [reflexivity|]. split; [reflexivity|].
    split.
    + apply (includes_middle "Table " tableName).
    + apply (includes_append_l "Table "), (includes_append_l tableName),
        (includes_end " does not exist or has no columns in database ").
  - split; reflexivity.
Qed.

Lemma getTableColumns_by_row_count_witness :
  completion (getTableColumns (Sample.serving []) "db.local" "root" "pw"
                "shop" "orders" None Sample.frame)
  = Returned {| success := false; data := None; error := None;
                message := "Table orders does not exist or has no columns in database shop" |}
  /\ exists r,
       completion (getTableColumns (Sample.serving [Sample.row "id"])
                     "db.local" "root" "pw" "shop" "orders" None Sample.frame)
       = Returned r /\ success r = true
       /\ data r = Some (Js.Arr [Sample.row "id"]).
Proof.
  split.
  - reflexivity.
  - destruct (getTableColumns_by_row_count (Sample.serving [Sample.row "id"])
                "db.local" "root" "pw" "shop" "orders" None Sample.frame
                1 [Sample.row "id"] (Js.Arr []) eq_refl eq_refl eq_refl)
      as [r [Hr [_ Hsome]]].
    exists r. split; [exact Hr|]. apply Hsome. discriminate.
Defined.

(** ** Tables of a schema: no row is a success *)

(** C5: when the connection opens, the catalog query answers with rows and
    the connection closes, [getTables] returns [success = true] with exactly
    the rows of the answer, in the order of the answer, as data; the one
    statement it runs is the catalog query, which ends in
    [ORDER BY table_name], bound to the schema name; zero rows give
    [success = true] and [data = []]. When the connection cannot be opened
    the result is [success = false] without data. *)
Theorem getTables_returns_rows drv host user password database port f :
  let opts := {| Mysql.host := host; Mysql.user := user;
                 Mysql.password := password; Mysql.database := database;
                 Mysql.port := port_or_default port |} in
  let run := getTables drv host user password database port f in
  (forall conn rows fields,
      Mysql.connect drv opts = inr conn ->
      Mysql.execute drv conn getTables_sql (Some [Js.Str database])
        = inr (Mysql.RowDataPackets rows, fields) ->
      Mysql.end_ drv conn = None ->
      completion run
      = Returned {| success := true;
                    data := Some (Js.Arr rows);
                    error := None;
                    message := "Successfully retrieved "
                               ++ Js.string_of_nat (List.length rows)
                               ++ " tables from database " ++ database |}
      /\ (rows = [] ->
          exists r, completion run = Returned r /\ success r = true
                    /\ data r = Some (Js.Arr []))
      /\ In (DriverExecute conn getTables_sql (Some [Js.Str database]))
            (trace run)
      /\ Js.includes getTables_sql "ORDER BY table_name" = true) /\
  (forall e,
      Mysql.connect drv opts = inl e ->
      exists r, completion run = Returned r /\ success r = false
                /\ data r = None).
Proof.
  cbn zeta. split.
  - intros conn rows fields Hconnect Hexecute Hend.
    unfold_database; cbn.
    rewrite Hconnect; cbn. rewrite Hexecute; cbn. rewrite Hend; cbn.
    split; [reflexivity|]. split.
    + intros ->. eexists. split; [reflexivity|]. split; reflexivity.
    + split; [auto 8 with datatypes | reflexivity].
  - intros e Hconnect.
    unfold_database; cbn. rewrite Hconnect; cbn.
    eexists. split; [reflexivity|]. split; reflexivity.
Qed.

Lemma getTables_returns_rows_witness :
  completion (getTables (Sample.serving []) "db.local" "root" "pw" "shop"
                        None Sample.frame)
  = Returned {| success := true; data := Some (Js.Arr []); error := None;
                message := "Successfully retrieved 0 tables from database shop" |}
  /\ exists r,
       completion (getTables Sample.unreachable "db.local" "root" "pw" "shop"
                             None Sample.frame) = Returned r
       /\ success r = false /\ data r = None.
Proof.
  destruct (getTables_returns_rows (Sample.serving []) "db.local" "root" "pw"
              "shop" None Sample.frame) as [Hrows _].
  destruct (getTables_returns_rows Sample.unreachable "db.local" "root" "pw"
              "shop" None Sample.frame) as [_ Hdown].
  split.
  - exact (proj1 (Hrows 1 [] (Js.Arr []) eq_refl eq_refl eq_refl)).
  - exact (Hdown (Js.Error "connect ECONNREFUSED") eq_refl).
Defined.

(** ** The call handler *)

Lemma object_check args :
  negb (Js.truthy args) || negb (Js.type_tag_eqb (Js.typeof args) Js.TObject)
  = negb (is_object args).
Proof.
  unfold is_object.
  destruct (Js.truthy args), (Js.type_tag_eqb (Js.typeof args) Js.TObject);
    reflexivity.
Qed.

Lemma registered_cases name :
  registered name = true ->
  name = "get_table_columns" \/ name = "get_tables"
  \/ name = "execute_query" \/ name = "test_connection".
Proof.
  unfold registered; cbn. rewrite !orb_true_iff, !String.eqb_eq.
  intuition discriminate.
Qed.

(** Each guard checks what the [required] array of its tool lists. *)
Lemma type_guard_checks_required_fields t args :
  In t tools -> type_guard (tool_name t) args = well_typed_arguments t args.
Proof.
  cbn. intros [<-|[<-|[<-|[<-|[]]]]];
    unfold type_guard, well_typed_arguments, isGetTableColumnsArgs,
      isDatabaseConnectionArgs, isExecuteQueryArgs; cbn;
    rewrite ?andb_true_r, ?andb_assoc; reflexivity.
Qed.

Lemma dispatch_validated drv name args call :
  validated name args = Some call -> dispatch drv name args = invoke drv call.
Proof.
  unfold validated.
  destruct (registered name) eqn:Hreg; [|discriminate].
  destruct (type_guard name args) eqn:Hguard; [|discriminate].
  cbn [andb].
  destruct (registered_cases name Hreg) as [ -> | [ -> | [ -> | -> ]]];
    unfold type_guard in Hguard; cbn in Hguard |- *;
    intros [= <-]; unfold dispatch; cbn; rewrite Hguard; reflexivity.
Qed.

Lemma dispatch_rejected drv t args :
  In t tools ->
  type_guard (tool_name t) args = false ->
  dispatch drv (tool_name t) args
  = throw (Js.Error ("Invalid arguments for " ++ tool_name t ++ ". Required: "
                     ++ Js.join ", " (tool_required t))).
Proof.
  cbn. intros [<-|[<-|[<-|[<-|[]]]]]; unfold type_guard; cbn; intros Hguard;
    unfold dispatch; cbn; rewrite Hguard; reflexivity.
Qed.

Lemma dispatch_unknown drv name args :
  registered name = false ->
  dispatch drv name args = throw (Js.Error ("Unknown tool: " ++ name)).
Proof.
  unfold registered; cbn. rewrite !orb_false_iff.
  intros [H1 [H2 [H3 [H4 _]]]].
  unfold dispatch. rewrite H1, H2, H3, H4. reflexivity.
Qed.

(** A database function never ends the process. *)
Lemma invoke_never_exits drv call f code :
  completion (invoke drv call f) <> Exited code.
Proof. destruct call; run_database; discriminate. Qed.

(** JSON.stringify of a result object is a string. *)
Lemma stringify_result r :
  Js.stringify (result_value r) = Some (show_json (result_value r)).
Proof.
  unfold show_json.
  destruct (Js.stringify (result_value r)) eqn:E; [reflexivity|].
  unfold Js.stringify, result_value in E. cbn in E.
  repeat match type of E with
         | context [match ?x with _ => _ end] => destruct x
         end; discriminate.
Qed.

(** ** Rejected arguments *)

(** C2: for each of the four tools, a call whose arguments fail the tool's
    type guard is answered with an error-flagged response and an empty
    trace: no database function runs (each would ask the driver for a
    connection). When the arguments are an object, the response holds one
    text whose content is
    "Error: Invalid arguments for <tool>. Required: <required fields>",
    and that text includes the tool's name and each of its required
    fields. *)
Theorem invalid_arguments_never_reach_database drv t args f :
  In t tools ->
  type_guard (tool_name t) args = false ->
  exists resp,
    call_tool drv (tool_name t) args f = (Returned resp, f, [])
    /\ isError resp = Some true
    /\ (is_object args = true ->
        exists c,
          content resp = [c]
          /\ type c = "text"
          /\ text c = "Error: Invalid arguments for " ++ tool_name t
                      ++ ". Required: " ++ Js.join ", " (tool_required t)
          /\ Js.includes (text c) (tool_name t) = true
          /\ forallb (Js.includes (text c)) (tool_required t) = true).
Proof.
  intros Hin Hguard.
  unfold call_tool. rewrite object_check.
  destruct (is_object args); cbn [negb].
  - rewrite (dispatch_rejected drv t args Hin Hguard).
    eexists. split; [reflexivity|]. split; [reflexivity|].
    intros _. eexists. split; [reflexivity|].
    clear Hguard. cbn in Hin.
    destruct Hin as [<-|[<-|[<-|[<-|[]]]]]; repeat split; reflexivity.
  - eexists. split; [reflexivity|]. split; [reflexivity|]. discriminate.
Qed.

Lemma invalid_arguments_never_reach_database_witness :
  exists resp,
    call_tool (Sample.serving [])
              "get_table_columns"
              (Js.Obj [("host", Js.Str "db.local"); ("user", Js.Str "root");
                       ("password", Js.Str "pw"); ("database", Js.Str "shop")])
              Sample.frame
    = (Returned resp, Sample.frame, [])
    /\ isError resp = Some true
    /\ content resp
       = [{| type := "text";
             text := "Error: Invalid arguments for get_table_columns. Required: host, user, password, database, tableName" |}].
Proof.
  destruct (invalid_arguments_never_reach_database
              (Sample.serving [])
              {| tool_name := "get_table_columns";
                 tool_required := ["host"; "user"; "password"; "database";
                                   "tableName"] |}
              (Js.Obj [("host", Js.Str "db.local"); ("user", Js.Str "root");
                       ("password", Js.Str "pw"); ("database", Js.Str "shop")])
              Sample.frame (or_introl eq_refl) eq_refl)
    as [resp [Hrun [Hflag Htext]]].
  exists resp. split; [exact Hrun|]. split; [exact Hflag|].
  destruct (Htext eq_refl) as [c [Hcontent [Htype [Hc _]]]].
  rewrite Hcontent. destruct c as [ty tx]. cbn in Htype, Hc.
  rewrite Htype, Hc. reflexivity.
Defined.

(** ** Unknown tool names *)

(** C7 fails when the request carries no arguments: the handler answers
    "Error: Missing or invalid arguments" before it looks at the name. *)
Lemma unknown_tool_without_arguments : ~ unknown_tool_text_names_tool.
Proof.
  intros Hall.
  destruct (Hall (Sample.serving []) "drop_table" Js.Undefined Sample.frame
                   eq_refl) as [resp [Hresp [_ [c [Hin Hincl]]]]].
  cbn in Hresp. injection Hresp as <-.
  cbn in Hin. destruct Hin as [<-|[]].
  cbn in Hincl. discriminate Hincl.
Qed.

(** C7, amended: a call under an unregistered name returns an error-flagged
    response (the handler returns: it neither throws nor ends the process)
    and runs nothing; the response holds one text: when the arguments are an
    object it is "Error: Unknown tool: <name>", which includes the name;
    when they are missing or no object it is
    "Error: Missing or invalid arguments". *)
Theorem unknown_tool_is_reported drv name args f :
  registered name = false ->
  exists resp c,
    call_tool drv name args f = (Returned resp, f, [])
    /\ isError resp = Some true
    /\ content resp = [c]
    /\ type c = "text"
    /\ text c = (if is_object args then "Error: Unknown tool: " ++ name
                 else "Error: Missing or invalid arguments")
    /\ (is_object args = true -> Js.includes (text c) name = true).
Proof.
  intros Hunknown.
  unfold call_tool. rewrite object_check.
  destruct (is_object args); cbn [negb].
  - rewrite (dispatch_unknown drv name args Hunknown).
    do 2 eexists. repeat (split; [reflexivity|]).
    intros _. apply (includes_end "Error: Unknown tool: ").
  - do 2 eexists. repeat (split; [reflexivity|]). discriminate.
Qed.

Lemma unknown_tool_is_reported_witness :
  exists resp,
    call_tool (Sample.serving []) "drop_table" (Js.Obj []) Sample.frame
    = (Returned resp, Sample.frame, [])
    /\ isError resp = Some true
    /\ content resp
       = [{| type := "text"; text := "Error: Unknown tool: drop_table" |}].
Proof.
  destruct (unknown_tool_is_reported (Sample.serving []) "drop_table"
              (Js.Obj []) Sample.frame eq_refl)
    as [resp [c [Hrun [Hflag [Hcontent [Htype [Hc _]]]]]]].
  exists resp. split; [exact Hrun|]. split; [exact Hflag|].
  rewrite Hcontent. destruct c as [ty tx]. cbn in Htype, Hc.
  rewrite Htype, Hc. reflexivity.
Defined.

(** ** Failure results are not protocol errors *)

(** A failure of a database function carries no data. *)
Lemma failure_carries_no_data drv call f r :
  completion (invoke drv call f) = Returned r ->
  success r = false -> data r = None.
Proof.
  destruct call; run_database; intros Hr; try discriminate;
    injection Hr as <-; cbn; intros Hs; try discriminate; reflexivity.
Qed.

(** The JSON text of a failure without data. *)
Lemma failure_json r :
  success r = false -> data r = None ->
  show_json (result_value r) = failure_text (error r) (message r).
Proof.
  destruct r as [s d e m]. cbn. intros -> ->.
  unfold show_json, Js.stringify, result_value, failure_text; cbn.
  destruct e as [e|]; cbn; f_equal; normalize_append.
Qed.

(** C9: when the arguments are an object, the name is registered, the guard
    accepts the arguments and the database function returns a result with
    [success = false], the handler returns a response without [isError]
    whose one text is the JSON of the result: an object of the members
    [success] (false), [error] (when the result has one) and [message],
    indented by two spaces. A response carries [isError] only when the
    arguments are missing or no object, or the guard rejects them, or the
    name is not registered, or the database function threw. *)
Theorem failure_result_is_plain_text drv name args f :
  (forall call r,
      is_object args = true ->
      validated name args = Some call ->
      completion (invoke drv call f) = Returned r ->
      success r = false ->
      exists resp c,
        completion (call_tool drv name args f) = Returned resp
        /\ isError resp = None
        /\ content resp = [c]
        /\ type c = "text"
        /\ text c = failure_text (error r) (message r)) /\
  (forall resp,
      completion (call_tool drv name args f) = Returned resp ->
      isError resp = Some true ->
      is_object args = false
      \/ (registered name = true /\ type_guard name args = false)
      \/ registered name = false
      \/ exists call e, validated name args = Some call
                        /\ completion (invoke drv call f) = Threw e).
Proof.
  split.
  - intros call r Hobj Hvalid Hr Hfailure.
    pose proof (failure_carries_no_data drv call f r Hr Hfailure) as Hdata.
    unfold call_tool. rewrite object_check, Hobj; cbn [negb].
    rewrite (dispatch_validated drv name args call Hvalid).
    unfold try_catch, bind, completion in *.
    destruct (invoke drv call f) as [[c f1] t1]. cbn in Hr. subst c.
    cbn. do 2 eexists. repeat (split; [reflexivity|]).
    cbn. apply failure_json; assumption.
  - intros resp Hresp Hflag.
    destruct (is_object args) eqn:Hobj; [|left; reflexivity]. right.
    destruct (registered name) eqn:Hreg; [|right; left; reflexivity].
    destruct (type_guard name args) eqn:Hguard; [|left; split; reflexivity].
    right. right.
    destruct (validated name args) as [call|] eqn:Hvalid.
    + exists call.
      revert Hresp. unfold call_tool. rewrite object_check, Hobj; cbn [negb].
      rewrite (dispatch_validated drv name args call Hvalid).
      pose proof (invoke_never_exits drv call f) as Hexit.
      unfold try_catch, bind, completion in *.
      destruct (invoke drv call f) as [[c f1] t1]. cbn in Hexit.
      destruct c as [r|e|code]; cbn.
      * intros [= <-]. discriminate Hflag.
      * intros _. exists e. split; reflexivity.
      * exfalso. exact (Hexit code eq_refl).
    + exfalso. unfold validated in Hvalid. rewrite Hreg, Hguard in Hvalid.
      cbn in Hvalid.
      repeat match type of Hvalid with
             | context [if ?b then _ else _] => destruct b
             end; discriminate.
Qed.

Lemma failure_result_is_plain_text_witness :
  exists resp,
    completion (call_tool Sample.unreachable "get_tables"
                  (Js.Obj [("host", Js.Str "db.local");
                           ("user", Js.Str "root");
                           ("password", Js.Str "pw");
                           ("database", Js.Str "shop")])
                  Sample.frame) = Returned resp
    /\ isError resp = None
    /\ content resp
       = [{| type := "text";
             text := "{" ++ Js.newline
                     ++ "  " ++ Js.dquote ++ "success" ++ Js.dquote
                     ++ ": false," ++ Js.newline
                     ++ "  " ++ Js.dquote ++ "error" ++ Js.dquote ++ ": "
                     ++ Js.dquote
                     ++ "Failed to connect to database: connect ECONNREFUSED"
                     ++ Js.dquote ++ "," ++ Js.newline
                     ++ "  " ++ Js.dquote ++ "message" ++ Js.dquote ++ ": "
                     ++ Js.dquote
                     ++ "Failed to get tables from database shop: Failed to connect to database: connect ECONNREFUSED"
                     ++ Js.dquote ++ Js.newline
                     ++ "}" |}].
Proof.
  destruct (proj1 (failure_result_is_plain_text Sample.unreachable
                     "get_tables"
                     (Js.Obj [("host", Js.Str "db.local");
                              ("user", Js.Str "root");
                              ("password", Js.Str "pw");
                              ("database", Js.Str "shop")])
                     Sample.frame)
              (GetTables "db.local" "root" "pw" "shop" None)
              {| success := false; data := None;
                 error := Some "Failed to connect to database: connect ECONNREFUSED";
                 message := "Failed to get tables from database shop: Failed to connect to database: connect ECONNREFUSED" |}
              eq_refl eq_refl eq_refl eq_refl)
    as [resp [c [Hrun [Hflag [Hcontent [Htype Hc]]]]]].
  exists resp. split; [exact Hrun|]. split; [exact Hflag|].
  rewrite Hcontent. destruct c as [ty tx]. cbn in Htype, Hc.
  rewrite Htype, Hc. reflexivity.
Defined.

(** With a driver whose [end()] rejects, the exception of the database
    function is what sets [isError]. *)
Example rejected_end_sets_isError :
  completion (call_tool Sample.broken_close "test_connection"
                (Js.Obj [("host", Js.Str "db.local"); ("user", Js.Str "root");
                         ("password", Js.Str "pw"); ("database", Js.Str "shop")])
                Sample.frame)
  = Returned {| content := [{| type := "text";
                               text := "Error: socket closed" |}];
                isError := Some true |}.
Proof. reflexivity. Qed.

(** ** The exit code of the command line *)

Ltac fold_invoke drv :=
  repeat match goal with
    | |- context [testConnection drv ?h ?u ?p ?d ?port] =>
        change (testConnection drv h u p d port)
          with (invoke drv (TestConnection h u p d port))
    | |- context [getTables drv ?h ?u ?p ?d ?port] =>
        change (getTables drv h u p d port)
          with (invoke drv (GetTables h u p d port))
    | |- context [getTableColumns drv ?h ?u ?p ?d ?t ?port] =>
        change (getTableColumns drv h u p d t port)
          with (invoke drv (GetTableColumns h u p d t port))
    | |- context [executeQuery drv ?h ?u ?p ?d ?q ?ps ?port] =>
        change (executeQuery drv h u p d q ps port)
          with (invoke drv (ExecuteQuery h u p d q ps port))
    end.

Ltac cbn_main :=
  cbn -[testConnection getTables getTableColumns executeQuery
        formatTableInfo_any formatColumnInfo_any].

Ltac split_formatter :=
  try match goal with
      | |- context [formatTableInfo_any ?t ?v] =>
          destruct (formatTableInfo_any t v); cbn_main
      end;
  try match goal with
      | |- context [formatColumnInfo_any ?v] =>
          destruct (formatColumnInfo_any v); cbn_main
      end.

(** The exit code in closed form: 0 when the module is not the entry script;
    otherwise 1 when [main] makes no database call, when the call throws or
    fails and when printing the result throws, and 0 in what is left. *)
Lemma exit_code_eq drv toLocaleString url process_argv f :
  exit_code drv toLocaleString url process_argv
  = if run_directly url process_argv then
      match selected_call (skipn 2 process_argv) with
      | None => 1
      | Some call =>
          match completion (invoke drv call f) with
          | Returned r =>
              if success r then
                match display_error toLocaleString call r with
                | None => 0
                | Some _ => 1
                end
              else 1
          | _ => 1
          end
      end%Z
    else 0%Z.
Proof.
  unfold exit_code, script.
  destruct (run_directly url process_argv); [|reflexivity].
  unfold main, selected_call, display_error.
  remember (skipn 2 process_argv) as args eqn:Hargs. clear Hargs.
  destruct args as [|command [|host [|user [|password [|database extra]]]]];
    try reflexivity.
  unfold try_catch, bind, ret, console_log_formatted, throw, console_log,
    console_error, emit, process_exit, completion, success_with_data,
    data_value.
  cbn_main.
  destruct (command =? "test");
    [|destruct (command =? "tables");
      [|destruct (command =? "columns");
        [|destruct (command =? "query"); [|reflexivity]]]].
  all: try (destruct extra as [|extra0 extra]; [reflexivity|]).
  all: cbn_main.
  all: fold_invoke drv.
  all: rewrite (invoke_frame drv _ _ f).
  all: match goal with
       | |- context [invoke ?d ?call ?f0] =>
           pose proof (invoke_never_exits d call f0) as Hexit;
           unfold completion in Hexit;
           destruct (invoke d call f0) as [[c f1] t1]
       end.
  all: destruct c as [r|e|code]; cbn_main; cbn in Hexit;
    [|reflexivity|exfalso; exact (Hexit code eq_refl)].
  all: destruct (success r) eqn:Hsuccess; cbn_main; rewrite ?Hsuccess;
    cbn_main.
  all: try (destruct (data r) as [v|]; cbn_main;
            [destruct (Js.truthy v); cbn_main|]).
  all: rewrite ?Hsuccess; cbn_main.
  all: split_formatter.
  all: rewrite ?Hsuccess; cbn_main.
  all: try (destruct (error r) as [details|]; cbn_main;
            [destruct (details =? ""); cbn_main|]).
  all: reflexivity.
Qed.

(** The formatters on rows of the declared types. *)
Lemma forEach_try_typed {A} (encode : A -> Js.value)
      (block_any : nat -> Js.value -> Js.thrown + string)
      (block : nat -> A -> string) :
  (forall index x, block_any index (encode x) = inr (block index x)) ->
  forall xs index result,
    forEach_try block_any index (map encode xs) result
    = inr (forEach_append block index xs result).
Proof.
  intros Hblock xs. induction xs as [|x xs IH]; intros index result; cbn.
  - reflexivity.
  - rewrite Hblock. apply IH.
Qed.

Lemma or_text_string s fallback :
  or_text (Js.Str s) fallback = or_else s fallback.
Proof. unfold or_text, or_else. cbn. destruct (s =? ""); reflexivity. Qed.

Lemma column_block_any_typed index column :
  column_block_any index (column_value column)
  = inr (column_block index column).
Proof.
  unfold column_block_any, column_block, column_value; cbn.
  rewrite or_text_string. f_equal. f_equal. f_equal. f_equal. f_equal.
  - destruct (columnDefault column); cbn; [now rewrite or_text_string|].
    reflexivity.
Qed.

Lemma formatColumnInfo_any_typed columns :
  formatColumnInfo_any (Js.Arr (map column_value columns))
  = inr (formatColumnInfo columns).
Proof.
  unfold formatColumnInfo_any, formatColumnInfo, forEach; cbn.
  rewrite length_map.
  destruct (Nat.eqb (List.length columns) 0); [reflexivity|].
  apply forEach_try_typed, column_block_any_typed.
Qed.

Lemma table_block_any_typed toLocaleString index table :
  table_block_any toLocaleString index (table_value table)
  = inr (table_block toLocaleString index table).
Proof.
  unfold table_block_any, table_block, table_value; cbn.
  destruct (tableRows table); cbn; rewrite or_text_string; reflexivity.
Qed.

Lemma formatTableInfo_any_typed toLocaleString tables :
  formatTableInfo_any toLocaleString (Js.Arr (map table_value tables))
  = inr (formatTableInfo toLocaleString tables).
Proof.
  unfold formatTableInfo_any, formatTableInfo, forEach; cbn.
  rewrite length_map.
  destruct (Nat.eqb (List.length tables) 0); [reflexivity|].
  apply forEach_try_typed, table_block_any_typed.
Qed.

(** Printing throws nothing for [test] and [query], and nothing for
    [tables] and [columns] on rows of the declared types. *)
Lemma display_error_typed toLocaleString call r :
  match call with
  | GetTables _ _ _ _ _ =>
      exists tables, data r = Some (Js.Arr (map table_value tables))
  | GetTableColumns _ _ _ _ _ _ =>
      exists columns, data r = Some (Js.Arr (map column_value columns))
  | _ => True
  end ->
  display_error toLocaleString call r = None.
Proof.
  unfold display_error, data_value.
  destruct (success_with_data r); [|reflexivity].
  destruct call; try reflexivity.
  - intros [columns ->]. now rewrite formatColumnInfo_any_typed.
  - intros [tables ->]. now rewrite formatTableInfo_any_typed.
Qed.


(** A formatter that throws: [getTables] succeeds on an answer whose one
    row is [null], [formatTableInfo] cannot read the name of that row, and
    the [catch] of [main] ends the process with 1. *)
Example formatter_exception_exits_1 :
  completion (getTables (Sample.serving [Js.Null]) "db.local" "root" "pw"
                        "shop" None Sample.frame)
  = Returned {| success := true; data := Some (Js.Arr [Js.Null]);
                error := None;
                message := "Successfully retrieved 1 tables from database shop" |}
  /\ exit_code (Sample.serving [Js.Null]) Js.string_of_Z Sample.url
               (Sample.command_line ["tables"; "db.local"; "root"; "pw";
                                     "shop"]) = 1%Z.
Proof. split; reflexivity. Qed.



(** * Further properties of the database module *)

(** ** The driver protocol of a call *)

(** X1: the driver calls of a database function, in order: the connect
    request alone when the driver refuses it; otherwise the connect request,
    the one statement of the function with its bind parameters, and the end
    of that connection, whatever the statement and the end answer. *)
Theorem driver_protocol drv call f :
  driver_events (trace (invoke drv call f))
  = match Mysql.connect drv (options_of call) with
    | inl _ => [DriverConnect (options_of call)]
    | inr conn =>
        [DriverConnect (options_of call);
         DriverExecute conn (fst (statement_of call)) (snd (statement_of call));
         DriverEnd conn]
    end.
Proof.
  destruct call; run_database; reflexivity.
Qed.

(** ** When a call succeeds *)

(** X2: with a driver whose [end()] resolves, a database function returns
    [success = true] exactly when the connection opened and the statement
    ran and, for [getTableColumns], the answer has a row; then [data] is the
    rows ([getTableColumns], [getTables]), the object of rows and fields
    ([executeQuery]) or absent ([testConnection]), and there is no [error].
    An answer without rows makes [getTableColumns] fail without [error]. *)
Theorem success_exactly_when_answered drv call f :
  (forall conn, Mysql.end_ drv conn = None) ->
  exists r,
    completion (invoke drv call f) = Returned r /\
    match answered drv call with
    | Some res =>
        if wants_rows call && negb (has_rows res) then
          success r = false /\ data r = None /\ error r = None
        else
          success r = true /\ data r = success_data call res
          /\ error r = None
    | None => success r = false /\ data r = None /\ error r <> None
    end.
Proof.
  intros Hend. unfold answered, has_rows.
  destruct call; run_database;
    try (rewrite Hend in *; discriminate);
    (eexists; split; [reflexivity|]); cbn;
    rewrite ?Elength; cbn; repeat split; discriminate.
Qed.

Lemma success_exactly_when_answered_witness :
  exists r,
    completion (invoke (Sample.serving [Sample.row "orders"])
                  (ExecuteQuery "db.local" "root" "pw" "shop"
                     "SELECT table_name AS tableName FROM t" None None)
                  Sample.frame) = Returned r
    /\ success r = true
    /\ data r = Some (Js.Obj [("rows", Js.Arr [Sample.row "orders"]);
                              ("fields", Js.Arr [])]).
Proof.
  destruct (success_exactly_when_answered
              (Sample.serving [Sample.row "orders"])
              (ExecuteQuery "db.local" "root" "pw" "shop"
                 "SELECT table_name AS tableName FROM t" None None)
              Sample.frame (fun _ => eq_refl)) as [r [Hr Hshape]].
  exists r. split; [exact Hr|].
  cbn in Hshape. destruct Hshape as [Hs [Hd _]]. split; assumption.
Defined.

(** ** An arbitrary statement *)

(** X3: [executeQuery] hands the statement and the bind parameters to the
    driver as they are; when the statement runs it returns
    [success = true], the message "Query executed successfully" and as data
    the object of the answer's rows (or the header of a statement without
    rows) and fields, unchanged. *)
Theorem executeQuery_passes_through
        drv host user password database query params port f conn res :
  Mysql.connect drv
    {| Mysql.host := host; Mysql.user := user; Mysql.password := password;
       Mysql.database := database; Mysql.port := port_or_default port |}
    = inr conn ->
  Mysql.execute drv conn query params = inr res ->
  Mysql.end_ drv conn = None ->
  completion (executeQuery drv host user password database query params
                           port f)
  = Returned {| success := true;
                data := Some (Js.Obj [("rows", Mysql.to_value (fst res));
                                      ("fields", snd res)]);
                error := None;
                message := "Query executed successfully" |}
  /\ In (DriverExecute conn query params)
        (trace (executeQuery drv host user password database query params
                             port f)).
Proof.
  intros Hconnect Hexecute Hend.
  unfold_database; cbn.
  rewrite Hconnect; cbn. rewrite Hexecute; cbn. rewrite Hend; cbn.
  split; [reflexivity | auto 8 with datatypes].
Qed.

Lemma executeQuery_passes_through_witness :
  completion (executeQuery (Sample.serving []) "db.local" "root" "pw" "shop"
                "SELECT 1 WHERE 1 = ?" (Some [Js.Num (Js.Int 2)]) None
                Sample.frame)
  = Returned {| success := true;
                data := Some (Js.Obj [("rows", Js.Arr []);
                                      ("fields", Js.Arr [])]);
                error := None;
                message := "Query executed successfully" |}.
Proof.
  exact (proj1 (executeQuery_passes_through (Sample.serving []) "db.local"
                  "root" "pw" "shop" "SELECT 1 WHERE 1 = ?"
                  (Some [Js.Num (Js.Int 2)]) None Sample.frame 1
                  (Mysql.RowDataPackets [], Js.Arr [])
                  eq_refl eq_refl eq_refl)).
Defined.

(** ** The connection test *)

(** X4: [testConnection] runs the statement [SELECT 1] without bind
    parameters and ignores its answer: when the connection opens, the
    statement runs and the connection closes, the result is
    [success = true] without data, with a message naming database and host;
    when the connection cannot be opened the statement is never sent and the
    result is [success = false] with the error of the driver behind
    "Failed to connect to database: ". *)
Theorem testConnection_outcomes drv host user password database port f :
  let opts := {| Mysql.host := host; Mysql.user := user;
                 Mysql.password := password; Mysql.database := database;
                 Mysql.port := port_or_default port |} in
  let run := testConnection drv host user password database port f in
  (forall conn res,
      Mysql.connect drv opts = inr conn ->
      Mysql.execute drv conn "SELECT 1" None = inr res ->
      Mysql.end_ drv conn = None ->
      completion run
      = Returned {| success := true; data := None; error := None;
                    message := "Successfully connected to database "
                               ++ database ++ "@" ++ host |}
      /\ In (DriverExecute conn "SELECT 1" None) (trace run)) /\
  (forall e,
      Mysql.connect drv opts = inl e ->
      completion run
      = Returned {| success := false; data := None;
                    error := Some ("Failed to connect to database: "
                                   ++ message_or e "Unknown error");
                    message := "Failed to connect to database " ++ database
                               ++ "@" ++ host
                               ++ ": Failed to connect to database: "
                               ++ message_or e "Unknown error" |}
      /\ driver_events (trace run) = [DriverConnect opts]).
Proof.
  cbn zeta. split.
  - intros conn res Hconnect Hexecute Hend.
    unfold_database; cbn.
    rewrite Hconnect; cbn. rewrite Hexecute; cbn. rewrite Hend; cbn.
    split; [reflexivity | auto 8 with datatypes].
  - intros e Hconnect.
    unfold_database; cbn. rewrite Hconnect; cbn.
    split; [do 2 f_equal; try normalize_append | reflexivity].
Qed.

Lemma testConnection_outcomes_witness :
  completion (testConnection (Sample.serving []) "db.local" "root" "pw"
                "shop" None Sample.frame)
  = Returned {| success := true; data := None; error := None;
                message := "Successfully connected to database shop@db.local" |}
  /\ completion (testConnection Sample.unreachable "db.local" "root" "pw"
                   "shop" None Sample.frame)
     = Returned {| success := false; data := None;
                   error := Some "Failed to connect to database: connect ECONNREFUSED";
                   message := "Failed to connect to database shop@db.local: Failed to connect to database: connect ECONNREFUSED" |}.
Proof.
  split.
  - exact (proj1 (proj1 (testConnection_outcomes (Sample.serving [])
                           "db.local" "root" "pw" "shop" None Sample.frame)
                   1 (Mysql.RowDataPackets [], Js.Arr [])
                   eq_refl eq_refl eq_refl)).
  - exact (proj1 (proj2 (testConnection_outcomes Sample.unreachable
                           "db.local" "root" "pw" "shop" None Sample.frame)
                   (Js.Error "connect ECONNREFUSED") eq_refl)).
Defined.

(** * Further properties of the server *)

(** ** The type guards *)

Lemma is_string_inv v : is_string v = true -> exists s, v = Js.Str s.
Proof. destruct v; try discriminate. eauto. Qed.

Lemma string_field_get args k :
  is_string (Js.get args k) = true -> Js.get args k = Js.Str (string_field args k).
Proof.
  intros H. unfold string_field.
  destruct (is_string_inv _ H) as [s ->]. reflexivity.
Qed.

Lemma optional_port args :
  Js.is_undefined (Js.get args "port") || is_number (Js.get args "port") = true ->
  (Js.get args "port" = Js.Undefined /\ number_field args "port" = None)
  \/ exists n, Js.get args "port" = Js.Num n
               /\ number_field args "port" = Some n.
Proof.
  unfold number_field.
  destruct (Js.get args "port"); try discriminate; intros _; eauto.
Qed.

Lemma isGetTableColumnsArgs_connection args :
  isGetTableColumnsArgs args = true -> isDatabaseConnectionArgs args = true.
Proof.
  unfold isGetTableColumnsArgs, isDatabaseConnectionArgs.
  rewrite !andb_true_iff. tauto.
Qed.

Lemma isExecuteQueryArgs_connection args :
  isExecuteQueryArgs args = true -> isDatabaseConnectionArgs args = true.
Proof.
  unfold isExecuteQueryArgs, isDatabaseConnectionArgs.
  rewrite !andb_true_iff. tauto.
Qed.

(** X5: the guards of [get_table_columns] and of [execute_query] accept only
    arguments that the connection guard accepts too; an accepted object
    holds strings under [host], [user], [password] and [database], and under
    [port] nothing or a number. *)
Theorem guards_extend_connection_guard args :
  (isGetTableColumnsArgs args = true -> isDatabaseConnectionArgs args = true)
  /\ (isExecuteQueryArgs args = true -> isDatabaseConnectionArgs args = true)
  /\ (isDatabaseConnectionArgs args = true ->
      Js.get args "host" = Js.Str (string_field args "host")
      /\ Js.get args "user" = Js.Str (string_field args "user")
      /\ Js.get args "password" = Js.Str (string_field args "password")
      /\ Js.get args "database" = Js.Str (string_field args "database")
      /\ ((Js.get args "port" = Js.Undefined
           /\ number_field args "port" = None)
          \/ exists n, Js.get args "port" = Js.Num n
                       /\ number_field args "port" = Some n)).
Proof.
  split; [apply isGetTableColumnsArgs_connection|].
  split; [apply isExecuteQueryArgs_connection|].
  unfold isDatabaseConnectionArgs. rewrite !andb_true_iff.
  intros [[[[[_ Hh] Hu] Hp] Hd] Hport].
  repeat split; auto using string_field_get, optional_port.
Qed.

Lemma guards_extend_connection_guard_witness :
  isDatabaseConnectionArgs
    (Js.Obj [("host", Js.Str "db.local"); ("user", Js.Str "root");
             ("password", Js.Str "pw"); ("database", Js.Str "shop");
             ("tableName", Js.Str "orders")]) = true.
Proof.
  apply (proj1 (guards_extend_connection_guard _)). reflexivity.
Defined.

(** X6: for each tool of the list, the guard the handler applies accepts
    exactly the arguments in which every field of the tool's [required]
    array is a string, [port] is absent or a number and, for
    [execute_query], [params] is absent or an array. *)
Theorem guards_follow_schema t args :
  In t tools -> type_guard (tool_name t) args = well_typed_arguments t args.
Proof. apply type_guard_checks_required_fields. Qed.

Lemma guards_follow_schema_witness :
  type_guard "execute_query"
    (Js.Obj [("host", Js.Str "db.local"); ("user", Js.Str "root");
             ("password", Js.Str "pw"); ("database", Js.Str "shop");
             ("query", Js.Str "SELECT 1"); ("params", Js.Str "1")])
  = false.
Proof.
  rewrite (guards_follow_schema
             {| tool_name := "execute_query";
                tool_required := ["host"; "user"; "password"; "database";
                                  "query"] |}).
  - reflexivity.
  - cbn. tauto.
Defined.

(** ** The answers of the call handler *)

Lemma refusal_text_unknown name :
  registered name = false ->
  refusal_text name = "Error: Unknown tool: " ++ name.
Proof.
  unfold registered; cbn. rewrite !orb_false_iff.
  intros [H1 [H2 [H3 [H4 _]]]].
  unfold refusal_text. rewrite H1, H2, H3, H4. reflexivity.
Qed.

(** A call that is not forwarded is answered on the spot. *)
Lemma call_tool_refused drv name args f :
  is_object args = true ->
  validated name args = None ->
  call_tool drv name args f
  = (Returned (text_response (refusal_text name) (Some true)), f, []).
Proof.
  intros Hobj Hvalid.
  unfold call_tool. rewrite object_check, Hobj; cbn [negb].
  destruct (registered name) eqn:Hreg.
  - unfold validated in Hvalid. rewrite Hreg in Hvalid. cbn [andb] in Hvalid.
    destruct (type_guard name args) eqn:Hguard.
    + exfalso.
      repeat match type of Hvalid with
             | context [if ?b then _ else _] => destruct b
             end; discriminate.
    + clear Hvalid.
      destruct (registered_cases name Hreg) as [ -> | [ -> | [ -> | -> ]]];
        unfold type_guard in Hguard; cbn in Hguard;
        unfold dispatch; cbn; rewrite Hguard; reflexivity.
  - rewrite (dispatch_unknown drv name args Hreg),
      (refusal_text_unknown name Hreg).
    reflexivity.
Qed.

(** A forwarded call is answered from the completion of the database
    function. *)
Lemma call_tool_forwarded drv name args f call :
  is_object args = true ->
  validated name args = Some call ->
  call_tool drv name args f
  = match invoke drv call f with
    | (Returned r, f1, t) =>
        (Returned (text_response (show_json (result_value r)) None), f1, t)
    | (Threw e, f1, t) =>
        (Returned (text_response ("Error: " ++ message_or e "Unknown error")
                                 (Some true)), f1, t)
    | (Exited code, f1, t) => (Exited code, f1, t)
    end.
Proof.
  intros Hobj Hvalid.
  unfold call_tool. rewrite object_check, Hobj; cbn [negb].
  rewrite (dispatch_validated drv name args call Hvalid).
  unfold try_catch, bind, ret.
  destruct (invoke drv call f) as [[[r|e|code] f1] t]; cbn;
    rewrite ?app_nil_r; reflexivity.
Qed.

(** X7: the handler answers every call: whatever the name, the arguments
    and the driver do, it returns a response and neither throws nor ends the
    process. The response is free of [isError] exactly when the arguments
    are an object, the name is registered, its guard accepts the arguments
    and the database function returned a result; in every other case
    [isError] is true. *)
Theorem call_tool_always_answers drv name args f :
  exists resp,
    completion (call_tool drv name args f) = Returned resp /\
    (isError resp = None \/ isError resp = Some true) /\
    (isError resp = None <->
     is_object args = true
     /\ exists call r, validated name args = Some call
                       /\ completion (invoke drv call f) = Returned r).
Proof.
  destruct (is_object args) eqn:Hobj.
  - destruct (validated name args) as [call|] eqn:Hvalid.
    + rewrite (call_tool_forwarded drv name args f call Hobj Hvalid).
      pose proof (invoke_never_exits drv call f) as Hexit.
      unfold completion in *.
      destruct (invoke drv call f) as [[[r|e|code] f1] t] eqn:Hrun;
        cbn in *.
      * eexists. split; [reflexivity|]. split; [left; reflexivity|].
        split; [|reflexivity]. intros _. split; [reflexivity|].
        exists call, r. rewrite Hrun. split; reflexivity.
      * eexists. split; [reflexivity|]. split; [right; reflexivity|].
        split; [discriminate|]. intros [_ [c [r [Hc Hr]]]].
        injection Hc as <-. rewrite Hrun in Hr. discriminate Hr.
      * exfalso. exact (Hexit code eq_refl).
    + rewrite (call_tool_refused drv name args f Hobj Hvalid).
      eexists. split; [reflexivity|]. split; [right; reflexivity|].
      split; [discriminate|]. intros [_ [c [r [Hc _]]]]. discriminate Hc.
  - unfold call_tool. rewrite object_check, Hobj; cbn [negb].
    eexists. split; [reflexivity|]. split; [right; reflexivity|].
    split; [discriminate|]. intros [H _]. discriminate H.
Qed.

Lemma call_tool_always_answers_witness :
  exists resp,
    completion (call_tool (Sample.serving []) "get_tables" Sample.arguments
                          Sample.frame) = Returned resp
    /\ isError resp = None.
Proof.
  destruct (call_tool_always_answers (Sample.serving []) "get_tables"
              Sample.arguments Sample.frame) as [resp [Hresp [_ Hiff]]].
  exists resp. split; [exact Hresp|].
  apply Hiff. split; [reflexivity|].
  exists (GetTables "db.local" "root" "pw" "shop" (Some (Js.Int 3307))).
  eexists. split; reflexivity.
Defined.

(** X8: a forwarded call does what the database function does and nothing
    more: the trace of the handler is the trace of the function, whose
    connect request carries the strings found under [host], [user],
    [password] and [database] of the arguments and the port found under
    [port], or 3306 when that is absent or 0. *)
Theorem call_tool_forwards_arguments drv name args f call :
  is_object args = true ->
  validated name args = Some call ->
  trace (call_tool drv name args f) = trace (invoke drv call f)
  /\ In (DriverConnect (options_of call)) (trace (call_tool drv name args f))
  /\ Js.get args "host" = Js.Str (Mysql.host (options_of call))
  /\ Js.get args "user" = Js.Str (Mysql.user (options_of call))
  /\ Js.get args "password" = Js.Str (Mysql.password (options_of call))
  /\ Js.get args "database" = Js.Str (Mysql.database (options_of call))
  /\ Mysql.port (options_of call)
     = port_or_default (number_field args "port").
Proof.
  intros Hobj Hvalid.
  assert (Htrace : trace (call_tool drv name args f)
                   = trace (invoke drv call f)).
  { rewrite (call_tool_forwarded drv name args f call Hobj Hvalid).
    unfold trace. destruct (invoke drv call f) as [[[r|e|code] f1] t];
      reflexivity. }
  split; [exact Htrace|].
  split; [rewrite Htrace; apply invoke_connects|].
  assert (Hconn : isDatabaseConnectionArgs args = true).
  { unfold validated in Hvalid.
    destruct (registered name) eqn:Hreg; [|discriminate].
    destruct (type_guard name args) eqn:Hguard; [|discriminate].
    destruct (registered_cases name Hreg) as [ -> | [ -> | [ -> | -> ]]];
      unfold type_guard in Hguard; cbn in Hguard;
      auto using isGetTableColumnsArgs_connection,
        isExecuteQueryArgs_connection. }
  revert Hconn.
  unfold isDatabaseConnectionArgs. rewrite !andb_true_iff.
  intros [[[[[_ Hh] Hu] Hp] Hd] _].
  unfold validated in Hvalid.
  destruct (registered name && type_guard name args); [|discriminate].
  cbn zeta in Hvalid.
  repeat match type of Hvalid with
         | context [if ?b then _ else _] => destruct b
         end; injection Hvalid as <-; cbn;
    repeat split; auto using string_field_get.
Qed.

Lemma call_tool_forwards_arguments_witness :
  In (DriverConnect {| Mysql.host := "db.local"; Mysql.user := "root";
                       Mysql.password := "pw"; Mysql.database := "shop";
                       Mysql.port := Js.Int 3307 |})
     (trace (call_tool (Sample.serving []) "get_tables" Sample.arguments
                       Sample.frame)).
Proof.
  exact (proj1 (proj2 (call_tool_forwards_arguments (Sample.serving [])
                         "get_tables" Sample.arguments Sample.frame
                         (GetTables "db.local" "root" "pw" "shop"
                                    (Some (Js.Int 3307)))
                         eq_refl eq_refl))).
Defined.

Lemma optional_params args :
  Js.is_undefined (Js.get args "params") || Js.isArray (Js.get args "params")
  = true ->
  (Js.get args "params" = Js.Undefined /\ array_field args "params" = None)
  \/ exists ps, Js.get args "params" = Js.Arr ps
                /\ array_field args "params" = Some ps.
Proof.
  unfold array_field.
  destruct (Js.get args "params"); try discriminate; intros _; eauto.
Qed.

Ltac run_call_tool Hconnect :=
  unfold call_tool, dispatch; rewrite object_check; cbn;
  unfold string_field, array_field;
  repeat match goal with
         | H : _ = true |- _ => rewrite H
         | H : Js.get _ _ = _ |- _ => rewrite H
         end;
  cbn; unfold_database; cbn; rewrite Hconnect; cbn; split_driver;
  auto 12 with datatypes.

(** X9: the statement a call sends. With arguments its guard accepts and a
    driver that grants the connection, a call of [get_table_columns] makes
    the driver run the column query bound to the strings under [database]
    and [tableName]; [get_tables] the table query bound to the string under
    [database]; [execute_query] the string under [query] with the array
    under [params], or without bind parameters when [params] is absent; and
    [test_connection] the statement [SELECT 1]. *)
Theorem call_tool_forwards_statement drv args f conn :
  is_object args = true ->
  (forall opts, Mysql.connect drv opts = inr conn) ->
  (forall d t,
      isGetTableColumnsArgs args = true ->
      Js.get args "database" = Js.Str d ->
      Js.get args "tableName" = Js.Str t ->
      In (DriverExecute conn getTableColumns_sql
                        (Some [Js.Str d; Js.Str t]))
         (trace (call_tool drv "get_table_columns" args f))) /\
  (forall d,
      isDatabaseConnectionArgs args = true ->
      Js.get args "database" = Js.Str d ->
      In (DriverExecute conn getTables_sql (Some [Js.Str d]))
         (trace (call_tool drv "get_tables" args f))) /\
  (forall q,
      isExecuteQueryArgs args = true ->
      Js.get args "query" = Js.Str q ->
      (Js.get args "params" = Js.Undefined ->
       In (DriverExecute conn q None)
          (trace (call_tool drv "execute_query" args f)))
      /\ (forall ps,
             Js.get args "params" = Js.Arr ps ->
             In (DriverExecute conn q (Some ps))
                (trace (call_tool drv "execute_query" args f)))) /\
  (isDatabaseConnectionArgs args = true ->
   In (DriverExecute conn "SELECT 1" None)
      (trace (call_tool drv "test_connection" args f))).
Proof.
  intros Hobj Hconnect.
  split; [|split; [|split]].
  - intros d t Hguard Hd Ht. run_call_tool Hconnect.
  - intros d Hguard Hd. run_call_tool Hconnect.
  - intros q Hguard Hq. split.
    + intros Hparams. run_call_tool Hconnect.
    + intros ps Hparams. run_call_tool Hconnect.
  - intros Hguard. run_call_tool Hconnect.
Qed.

Lemma call_tool_forwards_statement_witness :
  In (DriverExecute 1 getTables_sql (Some [Js.Str "shop"]))
     (trace (call_tool (Sample.serving []) "get_tables" Sample.arguments
                       Sample.frame)).
Proof.
  exact (proj1 (proj2 (call_tool_forwards_statement (Sample.serving [])
                         Sample.arguments Sample.frame 1 eq_refl
                         (fun _ => eq_refl)))
           "shop" eq_refl eq_refl).
Defined.

(** X10: when the connection of a validated call opens and its [end()]
    rejects, so that the database function throws, the handler returns one
    text, "Error: " followed by the message of what [end()] raised (or by
    "Unknown error" when that is no [Error]), with [isError] true. *)
Theorem call_tool_reports_exception drv name args f call conn e :
  is_object args = true ->
  validated name args = Some call ->
  Mysql.connect drv (options_of call) = inr conn ->
  Mysql.end_ drv conn = Some e ->
  exists resp,
    completion (call_tool drv name args f) = Returned resp
    /\ isError resp = Some true
    /\ content resp
       = [{| type := "text";
             text := "Error: " ++ match e with
                                  | Js.Error m => m
                                  | Js.NonError _ => "Unknown error"
                                  end |}].
Proof.
  intros Hobj Hvalid Hconnect Hend.
  pose proof (rejected_end_escapes drv call f conn e Hconnect Hend) as Hthrew.
  rewrite (call_tool_forwarded drv name args f call Hobj Hvalid).
  unfold completion in *.
  destruct (invoke drv call f) as [[[r|e'|code] f1] t]; cbn in *;
    try discriminate.
  injection Hthrew as ->.
  eexists. split; [reflexivity|]. split; reflexivity.
Qed.

Lemma call_tool_reports_exception_witness :
  exists resp,
    completion (call_tool Sample.broken_close "execute_query"
                  (Js.Obj [("host", Js.Str "db.local");
                           ("user", Js.Str "root");
                           ("password", Js.Str "pw");
                           ("database", Js.Str "shop");
                           ("query", Js.Str "SELEC 1")])
                  Sample.frame) = Returned resp
    /\ isError resp = Some true
    /\ content resp = [{| type := "text"; text := "Error: socket closed" |}].
Proof.
  exact (call_tool_reports_exception Sample.broken_close "execute_query"
           (Js.Obj [("host", Js.Str "db.local"); ("user", Js.Str "root");
                    ("password", Js.Str "pw"); ("database", Js.Str "shop");
                    ("query", Js.Str "SELEC 1")])
           Sample.frame
           (ExecuteQuery "db.local" "root" "pw" "shop" "SELEC 1" None None)
           1 (Js.Error "socket closed") eq_refl eq_refl eq_refl eq_refl).
Defined.

(** * Further properties of the command line *)

(** The driver calls of the script are those of the database function it
    selects, when it runs at all. *)
Lemma script_driver_events drv toLocaleString url process_argv :
  driver_events (trace (run_script drv toLocaleString url process_argv))
  = if run_directly url process_argv then
      match selected_call (skipn 2 process_argv) with
      | None => []
      | Some call =>
          driver_events (trace (invoke drv call {| connection := None |}))
      end
    else [].
Proof.
  unfold run_script, script.
  destruct (run_directly url process_argv); [|reflexivity].
  unfold main, selected_call.
  remember (skipn 2 process_argv) as args eqn:Hargs. clear Hargs.
  destruct args as [|command [|host [|user [|password [|database extra]]]]];
    try reflexivity.
  unfold try_catch, bind, ret, console_log_formatted, throw, console_log,
    console_error, emit, process_exit, completion, trace, driver_events,
    success_with_data, data_value.
  cbn_main.
  destruct (command =? "test");
    [|destruct (command =? "tables");
      [|destruct (command =? "columns");
        [|destruct (command =? "query"); [|reflexivity]]]].
  all: try (destruct extra as [|extra0 extra]; [reflexivity|]).
  all: cbn_main.
  all: fold_invoke drv.
  all: match goal with
       | |- context [invoke ?d ?call ?f0] =>
           pose proof (invoke_never_exits d call f0) as Hexit;
           unfold completion in Hexit;
           destruct (invoke d call f0) as [[c f1] t1]
       end.
  all: destruct c as [r|e|code]; cbn_main; cbn in Hexit;
    [| rewrite ?filter_app; cbn; rewrite ?app_nil_r; reflexivity
     | exfalso; exact (Hexit code eq_refl)].
  all: destruct (success r) eqn:Hsuccess; cbn_main; rewrite ?Hsuccess;
    cbn_main.
  all: try (destruct (data r) as [v|]; cbn_main;
            [destruct (Js.truthy v); cbn_main|]).
  all: rewrite ?Hsuccess; cbn_main.
  all: split_formatter.
  all: rewrite ?Hsuccess; cbn_main.
  all: try (destruct (error r) as [details|]; cbn_main;
            [destruct (details =? ""); cbn_main|]).
  all: rewrite ?filter_app; cbn; rewrite ?filter_app; cbn;
    rewrite ?app_nil_r; reflexivity.
Qed.

(** X11: the exit code of the script is 0 or 1. It is 0 when the module is
    not the entry script, since [main] does not run. When it is the entry
    script, the exit code is 0 exactly when the arguments select a database
    function (five arguments or more, one of the four commands, the extra
    argument of [columns] and [query]), that function returns a result with
    [success = true], and printing the result throws nothing. *)
Theorem exit_code_zero_iff drv toLocaleString url process_argv :
  let code := exit_code drv toLocaleString url process_argv in
  (code = 0%Z \/ code = 1%Z) /\
  (run_directly url process_argv = false -> code = 0%Z) /\
  (run_directly url process_argv = true ->
   (code = 0%Z <->
    exists call r,
      selected_call (skipn 2 process_argv) = Some call
      /\ completion (invoke drv call {| connection := None |}) = Returned r
      /\ success r = true
      /\ display_error toLocaleString call r = None)).
Proof.
  cbn zeta.
  rewrite (exit_code_eq drv toLocaleString url process_argv
             {| connection := None |}).
  destruct (run_directly url process_argv).
  2: { split; [left; reflexivity|]. split; [reflexivity | discriminate]. }
  assert (Hno : forall P : Prop,
             ~ P -> (1%Z = 0%Z \/ 1%Z = 1%Z)
                    /\ (true = false -> 1%Z = 0%Z)
                    /\ (true = true -> (1%Z = 0%Z <-> P))).
  { intros P HP. split; [right; reflexivity|].
    split; [discriminate|]. intros _. split; [discriminate | contradiction]. }
  destruct (selected_call (skipn 2 process_argv)) as [call|].
  - destruct (completion (invoke drv call {| connection := None |}))
      as [r|e|code] eqn:Hrun.
    + destruct (success r) eqn:Hsuccess.
      * destruct (display_error toLocaleString call r) eqn:Hdisplay.
        -- apply Hno. intros [c [r' [Hc [Hr [_ Hd]]]]].
           injection Hc as <-. rewrite Hrun in Hr. injection Hr as <-.
           congruence.
        -- split; [left; reflexivity|]. split; [discriminate|].
           intros _. split; [|reflexivity].
           intros _. exists call, r. auto.
      * apply Hno. intros [c [r' [Hc [Hr [Hs _]]]]].
        injection Hc as <-. rewrite Hrun in Hr. injection Hr as <-.
        congruence.
    + apply Hno. intros [c [r' [Hc [Hr _]]]].
      injection Hc as <-. rewrite Hrun in Hr. discriminate Hr.
    + apply Hno. intros [c [r' [Hc [Hr _]]]].
      injection Hc as <-. rewrite Hrun in Hr. discriminate Hr.
  - apply Hno. intros [c [r' [Hc _]]]. discriminate Hc.
Qed.

Lemma exit_code_zero_iff_witness :
  exit_code (Sample.serving [Sample.row "orders"]) Js.string_of_Z Sample.url
            (Sample.command_line ["columns"; "db.local"; "root"; "pw"; "shop";
                                  "orders"]) = 0%Z
  /\ exit_code (Sample.serving [Sample.row "orders"]) Js.string_of_Z
               Sample.spaced_url
               (Sample.spaced_command_line ["columns"]) = 0%Z.
Proof.
  split.
  - apply (proj2 (proj2 (exit_code_zero_iff
                           (Sample.serving [Sample.row "orders"])
                           Js.string_of_Z Sample.url
                           (Sample.command_line
                              ["columns"; "db.local"; "root"; "pw"; "shop";
                               "orders"])))
             eq_refl).
    exists (GetTableColumns "db.local" "root" "pw" "shop" "orders" None).
    eexists. split; [reflexivity|]. split; [reflexivity|].
    split; reflexivity.
  - exact (proj1 (proj2 (exit_code_zero_iff
                           (Sample.serving [Sample.row "orders"])
                           Js.string_of_Z Sample.spaced_url
                           (Sample.spaced_command_line ["columns"])))
             eq_refl).
Defined.

(** X12: when the module is not the entry script nothing happens at all.
    When it is, the script contacts the database only when its arguments
    select a database function, and then makes the driver calls of that one
    call and no other, with one connect request: with too few arguments, an
    unknown command or a missing extra argument no connection is
    requested. *)
Theorem script_contacts_database_for_one_call
        drv toLocaleString url process_argv :
  let run := run_script drv toLocaleString url process_argv in
  (run_directly url process_argv = false -> trace run = []) /\
  (run_directly url process_argv = true ->
   selected_call (skipn 2 process_argv) = None ->
   driver_events (trace run) = []) /\
  (run_directly url process_argv = true ->
   forall call,
     selected_call (skipn 2 process_argv) = Some call ->
     driver_events (trace run)
     = driver_events (trace (invoke drv call {| connection := None |}))
     /\ opens (trace run) = 1).
Proof.
  cbn zeta.
  pose proof (script_driver_events drv toLocaleString url process_argv)
    as Hevents.
  split; [|split].
  - intros Hguard. unfold run_script, script. rewrite Hguard. reflexivity.
  - intros Hguard Hnone. rewrite Hguard, Hnone in Hevents. exact Hevents.
  - intros Hguard call Hcall. rewrite Hguard, Hcall in Hevents.
    split; [exact Hevents|].
    assert (Hopens : forall t, opens t = opens (driver_events t)).
    { intros t. unfold opens, driver_events.
      induction t as [|[] t IH]; cbn; congruence. }
    rewrite Hopens, Hevents, <- Hopens.
    destruct call; run_database; reflexivity.
Qed.

Lemma script_contacts_database_for_one_call_witness :
  driver_events (trace (run_script (Sample.serving []) Js.string_of_Z
                          Sample.url
                          (Sample.command_line
                             ["columns"; "db.local"; "root"; "pw"; "shop"])))
  = []
  /\ opens (trace (run_script (Sample.serving []) Js.string_of_Z Sample.url
                     (Sample.command_line
                        ["columns"; "db.local"; "root"; "pw"; "shop";
                         "orders"]))) = 1
  /\ trace (run_script (Sample.serving []) Js.string_of_Z Sample.spaced_url
              (Sample.spaced_command_line
                 ["columns"; "db.local"; "root"; "pw"; "shop"; "orders"]))
     = [].
Proof.
  split; [|split].
  - exact (proj1 (proj2 (script_contacts_database_for_one_call
                           (Sample.serving []) Js.string_of_Z Sample.url
                           (Sample.command_line
                              ["columns"; "db.local"; "root"; "pw"; "shop"])))
             eq_refl eq_refl).
  - exact (proj2 (proj2 (proj2 (script_contacts_database_for_one_call
                                  (Sample.serving []) Js.string_of_Z
                                  Sample.url
                                  (Sample.command_line
                                     ["columns"; "db.local"; "root"; "pw";
                                      "shop"; "orders"])))
                    eq_refl
                    (GetTableColumns "db.local" "root" "pw" "shop" "orders"
                                     None) eq_refl)).
  - exact (proj1 (script_contacts_database_for_one_call
                    (Sample.serving []) Js.string_of_Z Sample.spaced_url
                    (Sample.spaced_command_line
                       ["columns"; "db.local"; "root"; "pw"; "shop";
                        "orders"]))
             eq_refl).
Defined.

(** X13: the usage text has thirteen lines. When the module is the entry
    script and fewer than five arguments follow the script name, the script
    prints these lines, nothing else, and ends the process with code 1;
    when the module is not the entry script it prints nothing and runs to
    its end. *)
Theorem short_command_line_prints_usage drv toLocaleString url process_argv :
  List.length usage = 13 /\
  (run_directly url process_argv = true ->
   List.length (skipn 2 process_argv) < 5 ->
   run_script drv toLocaleString url process_argv
   = (Exited 1, {| connection := None |}, map ConsoleLog usage)) /\
  (run_directly url process_argv = false ->
   run_script drv toLocaleString url process_argv
   = (Returned tt, {| connection := None |}, [])).
Proof.
  split; [reflexivity|].
  unfold run_script, script. split.
  - intros -> Hlen. unfold main.
    remember (skipn 2 process_argv) as args eqn:Hargs. clear Hargs.
    destruct args as [|command [|host [|user [|password [|database extra]]]]];
      try reflexivity.
    cbn in Hlen. lia.
  - intros ->. reflexivity.
Qed.

Lemma short_command_line_prints_usage_witness :
  completion (run_script Sample.unreachable Js.string_of_Z Sample.url
                (Sample.command_line ["test"; "db.local"]))
  = Exited 1
  /\ completion (run_script Sample.unreachable Js.string_of_Z
                   Sample.spaced_url
                   (Sample.spaced_command_line ["test"; "db.local"]))
     = Returned tt.
Proof.
  split.
  - rewrite (proj1 (proj2 (short_command_line_prints_usage Sample.unreachable
                             Js.string_of_Z Sample.url
                             (Sample.command_line ["test"; "db.local"])))
               eq_refl).
    + reflexivity.
    + cbn. lia.
  - rewrite (proj2 (proj2 (short_command_line_prints_usage Sample.unreachable
                             Js.string_of_Z Sample.spaced_url
                             (Sample.spaced_command_line
                                ["test"; "db.local"])))
               eq_refl).
    reflexivity.
Defined.

(** * The display formatters *)

(** ** Substrings, continued *)

Lemma prefix_of_iff p s : Js.prefix_of p s = true <-> exists b, s = p ++ b.
Proof.
  revert s. induction p as [|x p IH]; intros s; cbn.
  - split; [eauto | reflexivity].
  - destruct s as [|y s]; [split; [discriminate | intros [b Hb]; discriminate]|].
    rewrite andb_true_iff, Ascii.eqb_eq, IH. split.
    + intros [-> [b ->]]. eauto.
    + intros [b [= -> ->]]. eauto.
Qed.

Lemma includes_iff s sub :
  Js.includes s sub = true <-> exists a b, s = a ++ sub ++ b.
Proof.
  split.
  - induction s as [|x s IH]; cbn; rewrite orb_true_iff, prefix_of_iff.
    + intros [[b Hb]|H]; [|discriminate]. exists "", b. exact Hb.
    + intros [[b Hb]|H]; [exists "", b; exact Hb|].
      destruct (IH H) as [a [b ->]]. exists (String x a), b. reflexivity.
  - intros [a [b ->]]. apply includes_middle.
Qed.

Lemma includes_trans s t u :
  Js.includes s t = true -> Js.includes t u = true -> Js.includes s u = true.
Proof.
  rewrite !includes_iff. intros [a [b ->]] [c [d ->]].
  exists (a ++ c), (d ++ b). now rewrite !append_assoc.
Qed.

Lemma includes_append_r s b sub :
  Js.includes s sub = true -> Js.includes (s ++ b) sub = true.
Proof.
  rewrite !includes_iff. intros [a [c ->]].
  exists a, (c ++ b). now rewrite !append_assoc.
Qed.

(** ** The loop of a formatter *)

Lemma forEach_append_blocks {A} (block : nat -> A -> string) xs :
  forall index result,
    forEach_append block index xs result = result ++ blocks block index xs.
Proof.
  induction xs as [|x xs IH]; intros index result; cbn.
  - now rewrite append_empty_r.
  - now rewrite IH, append_assoc.
Qed.

Lemma blocks_includes {A} (block : nat -> A -> string) xs :
  forall index k x,
    nth_error xs k = Some x ->
    Js.includes (blocks block index xs) (block (index + k) x) = true.
Proof.
  induction xs as [|y xs IH]; intros index [|k] x Hnth; try discriminate.
  - injection Hnth as <-. cbn. rewrite Nat.add_0_r.
    apply includes_prefix, prefix_of_append.
  - cbn in Hnth |- *. apply includes_append_l.
    rewrite <- Nat.add_succ_comm. now apply IH.
Qed.

(** X14: [formatColumnInfo] answers "No columns found." for no column;
    otherwise the text starts with "Table contains N columns:" and holds
    the entry of every column, numbered from 1 in the order of the list,
    with its name and type; a default that is [null] or the empty string is
    shown as NULL and an empty comment as "No comment". *)
Theorem formatColumnInfo_lists_every_column columns :
  (columns = [] -> formatColumnInfo columns = "No columns found.") /\
  (columns <> [] ->
   Js.prefix_of ("Table contains " ++ Js.string_of_nat (List.length columns)
                 ++ " columns:" ++ Js.newline)
                (formatColumnInfo columns) = true) /\
  (forall k column,
      nth_error columns k = Some column ->
      let out := formatColumnInfo columns in
      Js.includes out (Js.string_of_nat (k + 1) ++ ". " ++ columnName column
                       ++ Js.newline) = true
      /\ Js.includes out ("   Type: " ++ columnType column ++ Js.newline)
         = true
      /\ (columnDefault column = None \/ columnDefault column = Some "" ->
          Js.includes out ("   Default: NULL" ++ Js.newline) = true)
      /\ (columnComment column = "" ->
          Js.includes out ("   Comment: No comment" ++ Js.newline) = true)).
Proof.
  split; [intros ->; reflexivity|].
  assert (Hout : columns <> [] ->
                 formatColumnInfo columns
                 = (("Table contains " ++ Js.string_of_nat (List.length columns)
                     ++ " columns:" ++ Js.newline)
                    ++ (repeat_string "═" 80 ++ Js.newline))
                   ++ blocks column_block 0 columns).
  { intros Hne. unfold formatColumnInfo.
    destruct columns as [|c cs]; [congruence|].
    cbn [List.length Nat.eqb]. apply forEach_append_blocks. }
  split.
  - intros Hne. rewrite (Hout Hne), append_assoc. apply prefix_of_append.
  - intros k column Hnth out.
    assert (Hne : columns <> []) by (destruct columns, k; discriminate).
    assert (Hblock : Js.includes out (column_block k column) = true).
    { unfold out. rewrite (Hout Hne). apply includes_append_l.
      exact (blocks_includes column_block columns 0 k column Hnth). }
    assert (Hpart : forall part,
               Js.includes (column_block k column) part = true ->
               Js.includes out part = true)
      by (intros part; apply includes_trans; exact Hblock).
    unfold column_block in Hpart.
    split; [apply Hpart, includes_prefix, prefix_of_append|].
    split; [apply Hpart, includes_append_l, includes_prefix, prefix_of_append|].
    split.
    + intros Hdefault. apply Hpart.
      do 3 apply includes_append_l.
      replace (or_else_null (columnDefault column) "NULL") with "NULL"
        by (destruct Hdefault as [-> | ->]; reflexivity).
      apply includes_prefix, prefix_of_append.
    + intros Hcomment. apply Hpart.
      do 4 apply includes_append_l.
      rewrite Hcomment.
      apply includes_prefix, (prefix_of_append ("   Comment: No comment" ++ Js.newline)).
Qed.

Lemma formatColumnInfo_lists_every_column_witness :
  Js.includes (formatColumnInfo [Sample.id_column]) ("1. id" ++ Js.newline)
  = true
  /\ Js.includes (formatColumnInfo [Sample.id_column])
                 ("   Default: NULL" ++ Js.newline) = true.
Proof.
  destruct (proj2 (proj2 (formatColumnInfo_lists_every_column
                            [Sample.id_column]))
              0 Sample.id_column eq_refl) as [Hname [_ [Hdefault _]]].
  split; [exact Hname | apply Hdefault; left; reflexivity].
Defined.

(** X15: [formatTableInfo] answers "No tables found." for no table;
    otherwise the text starts with "Database contains N tables:" and holds
    the entry of every table, numbered from 1 in the order of the list, with
    its name, type and engine; the row count is printed through
    [toLocaleString], also when it is 0, and as "Unknown" only when it is
    [null]. *)
Theorem formatTableInfo_lists_every_table toLocaleString tables :
  (tables = [] -> formatTableInfo toLocaleString tables = "No tables found.")
  /\
  (tables <> [] ->
   Js.prefix_of ("Database contains " ++ Js.string_of_nat (List.length tables)
                 ++ " tables:" ++ Js.newline)
                (formatTableInfo toLocaleString tables) = true) /\
  (forall k table,
      nth_error tables k = Some table ->
      let out := formatTableInfo toLocaleString tables in
      Js.includes out (Js.string_of_nat (k + 1) ++ ". " ++ tableName table
                       ++ Js.newline) = true
      /\ Js.includes out ("   Type: " ++ tableType table ++ Js.newline) = true
      /\ Js.includes out ("   Engine: " ++ engine table ++ Js.newline) = true
      /\ (forall n, tableRows table = Some n ->
                    Js.includes out ("   Rows: " ++ toLocaleString n
                                     ++ Js.newline) = true)
      /\ (tableRows table = None ->
          Js.includes out ("   Rows: Unknown" ++ Js.newline) = true)).
Proof.
  split; [intros ->; reflexivity|].
  assert (Hout : tables <> [] ->
                 formatTableInfo toLocaleString tables
                 = (("Database contains "
                     ++ Js.string_of_nat (List.length tables)
                     ++ " tables:" ++ Js.newline)
                    ++ (repeat_string "═" 80 ++ Js.newline))
                   ++ blocks (table_block toLocaleString) 0 tables).
  { intros Hne. unfold formatTableInfo.
    destruct tables as [|t ts]; [congruence|].
    cbn [List.length Nat.eqb]. apply forEach_append_blocks. }
  split.
  - intros Hne. rewrite (Hout Hne), append_assoc. apply prefix_of_append.
  - intros k table Hnth out.
    assert (Hne : tables <> []) by (destruct tables, k; discriminate).
    assert (Hblock : Js.includes out (table_block toLocaleString k table)
                     = true).
    { unfold out. rewrite (Hout Hne). apply includes_append_l.
      exact (blocks_includes (table_block toLocaleString) tables 0 k table
               Hnth). }
    assert (Hpart : forall part,
               Js.includes (table_block toLocaleString k table) part = true ->
               Js.includes out part = true)
      by (intros part; apply includes_trans; exact Hblock).
    unfold table_block in Hpart.
    split; [apply Hpart, includes_prefix, prefix_of_append|].
    split; [apply Hpart, includes_append_l, includes_prefix, prefix_of_append|].
    split; [apply Hpart; do 2 apply includes_append_l;
            apply includes_prefix, prefix_of_append|].
    split.
    + intros n Hrows. apply Hpart. do 3 apply includes_append_l.
      rewrite Hrows. apply includes_prefix, prefix_of_append.
    + intros Hrows. apply Hpart. do 3 apply includes_append_l.
      rewrite Hrows.
      apply includes_prefix,
        (prefix_of_append ("   Rows: Unknown" ++ Js.newline)).
Qed.

Lemma formatTableInfo_lists_every_table_witness :
  Js.includes (formatTableInfo Js.string_of_Z [Sample.orders_table])
              ("   Rows: 1200" ++ Js.newline) = true.
Proof.
  exact (proj1 (proj2 (proj2 (proj2
           (proj2 (proj2 (formatTableInfo_lists_every_table Js.string_of_Z
                            [Sample.orders_table]))
              0 Sample.orders_table eq_refl))))
           1200%Z eq_refl).
Defined.

(** * The port, continued *)

(** X16: a port that is neither 0 nor NaN is handed to the driver as it
    is, by each of the four database functions. *)
Theorem truthy_port_is_forwarded drv call f port :
  port_of call = Some port ->
  Js.number_truthy port = true ->
  Mysql.port (options_of call) = port
  /\ In (DriverConnect (options_of call)) (trace (invoke drv call f)).
Proof.
  intros Hport Htruthy. split; [|apply invoke_connects].
  destruct call; cbn in Hport |- *; rewrite Hport;
    apply truthy_port_forwarded, Htruthy.
Qed.

Lemma truthy_port_is_forwarded_witness :
  Mysql.port (options_of (TestConnection "db.local" "root" "pw" "shop"
                                         (Some (Js.Int 3307))))
  = Js.Int 3307.
Proof.
  exact (proj1 (truthy_port_is_forwarded (Sample.serving [])
                  (TestConnection "db.local" "root" "pw" "shop"
                                  (Some (Js.Int 3307)))
                  Sample.frame (Js.Int 3307) eq_refl eq_refl)).
Defined.

(** * The chat composer *)

(** X17: without a text area [adjustTextareaHeight] does nothing: no text
    area results and nothing is logged. Otherwise it sets [style.height] to
    "<n>px" where n is the scroll height measured under [height: auto],
    raised to 60 and capped at 200, and logs the measured height and n: n is
    always between 60 and 200 and is the measured height whenever that lies
    in the range. The height the text area had before plays no part. *)
Theorem adjustTextareaHeight_clamps t :
  adjustTextareaHeight None = (None, []) /\
  exists n,
    adjustTextareaHeight (Some t)
    = (Some {| style_height := Js.string_of_Z n ++ "px";
               layout := layout t |},
       [ConsolePrint "Textarea height adjusted:"
          (Js.Obj [("scrollHeight", Js.Num (Js.Int (layout t "auto")));
                   ("newHeight", Js.Num (Js.Int n))])])
    /\ (60 <= n <= 200)%Z
    /\ ((60 <= layout t "auto" <= 200)%Z -> n = layout t "auto")
    /\ ((layout t "auto" < 60)%Z -> n = 60%Z)
    /\ ((200 < layout t "auto")%Z -> n = 200%Z)
    /\ forall before,
         adjustTextareaHeight (Some (set_style_height t before))
         = adjustTextareaHeight (Some t).
Proof.
  split; [reflexivity|].
  exists (Z.min (Z.max (layout t "auto") 60) 200).
  split; [reflexivity|].
  repeat split; try lia.
Qed.

Lemma adjustTextareaHeight_clamps_witness :
  option_map style_height
             (fst (adjustTextareaHeight (Some (Sample.textarea 480))))
  = Some "200px"
  /\ option_map style_height
                (fst (adjustTextareaHeight (Some (Sample.textarea 84))))
     = Some "84px".
Proof.
  split.
  - destruct (proj2 (adjustTextareaHeight_clamps (Sample.textarea 480)))
      as [n [Hrun [_ [_ [_ [Hcap _]]]]]].
    rewrite Hrun. cbn. rewrite (Hcap ltac:(cbn; lia)). reflexivity.
  - destruct (proj2 (adjustTextareaHeight_clamps (Sample.textarea 84)))
      as [n [Hrun [_ [Hmid _]]]].
    rewrite Hrun. cbn. rewrite (Hmid ltac:(cbn; lia)). reflexivity.
Defined.
